(** * Expense Manager: dashboard analytics, API client and ledger consistency

    A shallow embedding of the TypeScript front end
    ([frontend/src/utils/api.ts], [frontend/src/pages/Dashboard.tsx],
    [frontend/src/pages/DashboardMock.tsx]) and of the ledger engine the
    front end talks to.

    JavaScript numbers are IEEE 754 binary64 values: they are embedded as
    Rocq's primitive [float], so [/], [*] and [-] below are the very
    operations the browser performs, including [x / 0] and [0 / 0]. *)

From Stdlib Require Import ZArith QArith Floats String List Sorted Lia.
From stdpp Require Import gmap strings list pretty.

Local Open Scope string_scope.
Local Open Scope Z_scope.

(* Decimal literals such as 1256.78 denote the nearest binary64 value, as in
   JavaScript. *)
Set Warnings "-inexact-float".

(** ** JavaScript values *)

Module Js.

(** [ToBoolean] on a number: [0], [-0] and [NaN] are falsy. *)
Definition truthy_number (x : float) : bool :=
  negb (PrimFloat.is_zero x || PrimFloat.is_nan x).

(** [ToBoolean] on a string: only the empty string is falsy. *)
Definition truthy_string (s : string) : bool :=
  match s with
  | EmptyString => false
  | String _ _ => true
  end.

(** [ToBoolean] on an optional number ([undefined] is falsy). *)
Definition truthy_opt_number (x : option float) : bool :=
  match x with
  | Some v => truthy_number v
  | None => false
  end.

(** A binary64 value below zero: a negative finite number or [-Infinity]. *)
Definition SFnegative (x : spec_float) : bool := SFltb x (S754_zero false).

(** The text a number is rendered to. [Exponent x] stands for the
    exponent notation [Number::toString] gives a finite [x] of magnitude
    at least [1e21]; its digits are not expanded here. *)
Inductive NumberText : Type :=
  | Text (s : string)
  | Exponent (x : float).

(** The integer [n] for which [n / 10^f - m * 2^e] is as close to zero as
    possible, the larger one on a tie (step 10.a of
    [Number.prototype.toFixed]). *)
Definition nearest_scaled (m : positive) (e : Z) (f : nat) : Z :=
  let scaled := Z.pos m * 10 ^ Z.of_nat f in
  if 0 <=? e then scaled * 2 ^ e
  else (2 * scaled + 2 ^ (- e)) / 2 ^ (1 - e).

Fixpoint zeros (k : nat) : string :=
  match k with
  | O => ""
  | S k' => "0" ++ zeros k'
  end.

(** Steps 10.b to 10.d of [toFixed]: the digits of [n], left-padded with
    zeros to [f + 1] characters, with a point before the last [f]. *)
Definition fixed_digits (n : Z) (f : nat) : string :=
  let m := pretty n in
  match f with
  | O => m
  | S _ =>
      let k := String.length m in
      let m := if (k <=? f)%nat then zeros (f + 1 - k) ++ m else m in
      let k := String.length m in
      substring 0 (k - f) m ++ "." ++ substring (k - f) f m
  end.

(** [x.toFixed(f)] for [0 <= f <= 100]. *)
Definition toFixed (x : float) (f : nat) : NumberText :=
  match Prim2SF x with
  | S754_nan => Text "NaN"
  | S754_infinity s => Text (if s then "-Infinity" else "Infinity")
  | S754_zero _ => Text (fixed_digits 0 f)
  | S754_finite s m e =>
      if (1e21 <=? PrimFloat.abs x)%float then Exponent x
      else Text ((if s then "-" else "") ++ fixed_digits (nearest_scaled m e f) f)
  end.

(** [Array.prototype.slice(start, end)] with integer arguments. *)
Definition slice {A : Type} (l : list A) (start final : Z) : list A :=
  let len := Z.of_nat (length l) in
  let k := if start <? 0 then Z.max (len + start) 0 else Z.min start len in
  let fin := if final <? 0 then Z.max (len + final) 0 else Z.min final len in
  take (Z.to_nat (fin - k)) (drop (Z.to_nat k) l).

(** A settled promise. *)
Inductive Settled (A E : Type) : Type :=
  | Fulfilled (value : A)
  | Rejected (reason : E).
Global Arguments Fulfilled {A E} value.
Global Arguments Rejected {A E} reason.

End Js.

(** ** The shared axios client ([frontend/src/utils/api.ts]) *)

Module Api.
Import Js.

(** The browser state the interceptors read and write: [localStorage] and
    [window.location.href]. *)
Record Browser : Type := {
  localStorage : gmap string string;
  location_href : string
}.

(** [localStorage.getItem(key)]: [None] is [null]. *)
Definition getItem (key : string) (b : Browser) : option string :=
  localStorage b !! key.

(** [localStorage.removeItem(key)]. *)
Definition removeItem (key : string) (b : Browser) : Browser :=
  {| localStorage := delete key (localStorage b);
     location_href := location_href b |}.

(** [window.location.href = url]. *)
Definition navigate (url : string) (b : Browser) : Browser :=
  {| localStorage := localStorage b; location_href := url |}.

(** The request configuration axios hands to the interceptor. *)
Record RequestConfig : Type := {
  url : string;
  method : string;
  baseURL : string;
  headers : gmap string string;
  data : option string
}.

(** [api.interceptors.request.use((config) => ...)], lines 15-22. *)
Definition requestInterceptor (b : Browser) (config : RequestConfig) : RequestConfig :=
  match getItem "token" b with
  | Some token =>
      if truthy_string token
      then {| url := url config;
              method := method config;
              baseURL := baseURL config;
              headers := <["Authorization" := "Bearer " ++ token]> (headers config);
              data := data config |}
      else config
  | None => config
  end.

Record Response : Type := {
  status : Z;
  body : string
}.

(** An axios error: [response] is [undefined] when no response arrived. *)
Record AxiosError : Type := {
  message : string;
  response : option Response
}.

(** [error.response?.status === 401]. *)
Definition is_unauthorized (error : AxiosError) : bool :=
  match response error with
  | Some r => status r =? 401
  | None => false
  end.

(** [api.interceptors.response.use((response) => response, ...)], line 30. *)
Definition responseInterceptor (r : Response) : Response := r.

(** The rejection handler of the response interceptor, lines 31-39. *)
Definition responseErrorInterceptor (error : AxiosError) (b : Browser)
  : Browser * Settled Response AxiosError :=
  let b' :=
    if is_unauthorized error
    then navigate "/login" (removeItem "user" (removeItem "token" b))
    else b in
  (b', Rejected error).

(** The error axios builds for a response it rejects. *)
Definition error_of (r : Response) : AxiosError :=
  {| message := "Request failed with status code " ++ pretty (status r);
     response := Some r |}.

(** axios' default [validateStatus]. *)
Definition validateStatus (st : Z) : bool := (200 <=? st) && (st <? 300).

(** How axios settles a response that arrived through the client: a status
    that is 0 or passes [validateStatus] resolves; any other status becomes
    an error carrying the response, and runs through the rejection
    handler. *)
Definition receive (r : Response) (b : Browser)
  : Browser * Settled Response AxiosError :=
  if (status r =? 0) || validateStatus (status r)
  then (b, Fulfilled (responseInterceptor r))
  else responseErrorInterceptor (error_of r) b.

(** A configuration with its [Authorization] header set to the bearer
    token, everything else as it was. *)
Definition with_authorization (token : string) (config : RequestConfig) : RequestConfig :=
  {| url := url config;
     method := method config;
     baseURL := baseURL config;
     headers := <["Authorization" := "Bearer " ++ token]> (headers config);
     data := data config |}.

End Api.

(** ** The dashboard page ([frontend/src/pages/Dashboard.tsx]) *)

Module Dashboard.
Import Js.
Local Open Scope float_scope.

(** [frontend/src/types/index.ts] *)
Record User : Type := {
  id : string;
  username : string;
  email : string;
  full_name : option string;
  budget : option float;
  created_at : string
}.

Record Expense : Type := {
  expense_id : string;
  amount : float;
  description : string;
  category : string;
  date : string;
  user_id : string;
  receipt_url : option string;
  merchant : option string;
  expense_created_at : string
}.

(** The two objects of a summary are kept as the entries [Object.entries]
    yields, in property order. *)
Record SpendingSummary : Type := {
  total_spent : float;
  total_transactions : float;
  categories : list (string * float);
  monthly_summary : list (string * float)
}.

(** The component state: [summary], [recentExpenses], [loading]. *)
Record State : Type := {
  summary : option SpendingSummary;
  recentExpenses : list Expense;
  loading : bool
}.

Definition initialState : State :=
  {| summary := None; recentExpenses := []; loading := true |}.

(** [fetchDashboardData], lines 38-52: both requests are awaited together;
    when either rejects the [catch] branch only logs. *)
Definition fetchDashboardData {E : Type}
    (summaryResult : Settled SpendingSummary E)
    (expensesResult : Settled (list Expense) E)
    (st : State) : State :=
  match summaryResult, expensesResult with
  | Fulfilled summaryData, Fulfilled expensesData =>
      {| summary := Some summaryData;
         recentExpenses := slice expensesData 0 5;
         loading := false |}
  | _, _ =>
      {| summary := summary st;
         recentExpenses := recentExpenses st;
         loading := false |}
  end.

Record CategoryDatum : Type := {
  name : string;
  value : float;
  percentage : NumberText
}.

(** [categoryData], lines 63-67. *)
Definition categoryData (summary : option SpendingSummary) : list CategoryDatum :=
  match summary with
  | Some s =>
      map (fun '(name, value) =>
             {| name := name;
                value := value;
                percentage := toFixed ((value / total_spent s) * 100) 1 |})
          (categories s)
  | None => []
  end.

Record MonthDatum : Type := {
  month : string;
  month_amount : float
}.

(** [monthlyData], lines 69-72. *)
Definition monthlyData (summary : option SpendingSummary) : list MonthDatum :=
  match summary with
  | Some s =>
      map (fun '(month, amount) => {| month := month; month_amount := amount |})
          (monthly_summary s)
  | None => []
  end.

(** [user?.budget]. *)
Definition user_budget (user : option User) : option float :=
  match user with
  | Some u => budget u
  | None => None
  end.

(** [budgetUsed], line 76. *)
Definition budgetUsed (summary : option SpendingSummary) (user : option User) : float :=
  match summary, user_budget user with
  | Some s, Some b =>
      if truthy_number b then (total_spent s / b) * 100 else 0
  | _, _ => 0
  end.

(** [summary?.total_spent || 0]. *)
Definition spent_or_zero (summary : option SpendingSummary) : float :=
  match summary with
  | Some s => if truthy_number (total_spent s) then total_spent s else 0
  | None => 0
  end.

(** [budgetRemaining], line 77. *)
Definition budgetRemaining (summary : option SpendingSummary) (user : option User) : float :=
  match user_budget user with
  | Some b => if truthy_number b then b - spent_or_zero summary else 0
  | None => 0
  end.

(** The caption under the budget figure, line 143. *)
Inductive BudgetCaption : Type :=
  | Remaining (amount : NumberText)
  | NoBudgetSet.

(** The Budget Status card, lines 139-144. *)
Record BudgetStatus : Type := {
  used : NumberText;
  caption : BudgetCaption
}.

Definition budgetStatus (summary : option SpendingSummary) (user : option User) : BudgetStatus :=
  {| used := toFixed (budgetUsed summary user) 1;
     caption :=
       if truthy_opt_number (user_budget user)
       then Remaining (toFixed (budgetRemaining summary user) 2)
       else NoBudgetSet |}.

(** The Avg per Day card, line 155. *)
Definition avgPerDay (summary : option SpendingSummary) : NumberText :=
  match summary with
  | Some s =>
      if truthy_number (total_spent s)
      then toFixed (total_spent s / 30) 2
      else Text "0.00"
  | None => Text "0.00"
  end.

(** A summary whose total is 0 while two categories are listed. *)
Definition zero_total_summary : SpendingSummary :=
  {| total_spent := 0;
     total_transactions := 2;
     categories := [ ("Food", 0); ("Rent", 12.5) ];
     monthly_summary := [] |}.

(** A user who set a budget of 0. *)
Definition zero_budget_user : User :=
  {| id := "7";
     username := "johndoe";
     email := "john@example.com";
     full_name := None;
     budget := Some 0;
     created_at := "2024-01-15T10:30:00" |}.

(** A summary with 5 spent. *)
Definition five_spent_summary : SpendingSummary :=
  {| total_spent := 5;
     total_transactions := 1;
     categories := [ ("Food", 5) ];
     monthly_summary := [ ("2024-01", 5) ] |}.

End Dashboard.

(** ** The demo dashboard ([frontend/src/pages/DashboardMock.tsx]) *)

Module DashboardMock.
Import Js.
Import Dashboard.
Local Open Scope float_scope.

(** [mockSummary], lines 27-42. *)
Definition mockSummary : SpendingSummary :=
  {| total_spent := 1256.78;
     total_transactions := 23;
     categories :=
       [ ("Food & Dining", 450.23);
         ("Transportation", 234.56);
         ("Shopping", 178.90);
         ("Entertainment", 156.45);
         ("Bills & Utilities", 236.64) ];
     monthly_summary :=
       [ ("Jan", 980.45); ("Feb", 1120.30); ("Mar", 1256.78) ] |}.

(** The demo user of [AuthContextMock]. *)
Definition mockUser : User :=
  {| id := "1";
     username := "testuser";
     email := "test@example.com";
     full_name := Some "Test User";
     budget := Some 2000;
     created_at := "2024-03-01" |}.

(** [categoryData], lines 104-108: the summary is never absent here. *)
Definition categoryData (summary : SpendingSummary) : list CategoryDatum :=
  map (fun '(name, value) =>
         {| name := name;
            value := value;
            percentage := toFixed ((value / total_spent summary) * 100) 1 |})
      (categories summary).

(** [monthlyData], lines 110-113. *)
Definition monthlyData (summary : SpendingSummary) : list MonthDatum :=
  map (fun '(month, amount) => {| month := month; month_amount := amount |})
      (monthly_summary summary).

(** [budgetUsed], line 117. *)
Definition budgetUsed (summary : SpendingSummary) (user : option User) : float :=
  match user_budget user with
  | Some b => if truthy_number b then (total_spent summary / b) * 100 else 0
  | None => 0
  end.

(** [budgetRemaining], line 118. *)
Definition budgetRemaining (summary : SpendingSummary) (user : option User) : float :=
  match user_budget user with
  | Some b => if truthy_number b then b - total_spent summary else 0
  | None => 0
  end.

(** The Budget Status card, lines 188-193. *)
Definition budgetStatus (summary : SpendingSummary) (user : option User) : BudgetStatus :=
  {| used := toFixed (budgetUsed summary user) 1;
     caption :=
       if truthy_opt_number (user_budget user)
       then Remaining (toFixed (budgetRemaining summary user) 2)
       else NoBudgetSet |}.

(** The Avg per Day card, line 204. *)
Definition avgPerDay (summary : SpendingSummary) : NumberText :=
  toFixed (total_spent summary / 30) 2.

(** The sum of an object's values, added left to right. *)
Definition sum_values (entries : list (string * float)) : float :=
  fold_left (fun acc '(_, v) => acc + v) entries 0.

End DashboardMock.

(** ** The ledger engine behind the API

    The Python back end ([routes/expense_transactions.py],
    [routes/summary.py], [services/chat_agent.py], [utils/db.py]) is only
    documented in [backend/API_DOCUMENTATION.md]; its operations are
    modelled from the specification. Monetary amounts are exact decimals,
    embedded as rationals. *)

Module Ledger.
Local Open Scope Q_scope.

(** Modelled from the spec: the error taxonomy of section 7. *)
Inductive Error : Type :=
  | ValidationError
  | NotFound
  | UnparseableAmount
  | ExtractionFailure
  | InconsistencyError.

(** Modelled from the spec: an operation returns data or a typed failure
    (section 6). *)
Inductive Result (A : Type) : Type :=
  | Ok (a : A)
  | Err (e : Error).
Global Arguments Ok {A} a.
Global Arguments Err {A} e.

(** Modelled from the spec: the [created_at] timestamp of section 3, as
    calendar fields. *)
Record Timestamp : Type := {
  year : Z;
  month : Z;
  day : Z;
  seconds : Z
}.

Inductive Provenance : Type := manual | receipt_derived.

(** Modelled from the spec: the Expense record of section 3. *)
Record Expense : Type := {
  id : nat;
  user_id : string;
  title : string;
  category : string;
  amount : Q;
  created_at : Timestamp;
  merchant : option string;
  provenance : option Provenance
}.

(** Modelled from the spec: the Transaction record of section 3. *)
Record Transaction : Type := {
  tx_id : nat;
  tx_user_id : string;
  tx_expense_id : option nat;
  tx_category : string;
  tx_amount : Q;
  tx_description : string;
  tx_created_at : Timestamp
}.

(** Modelled from the spec: the budget and the cached total of a User
    (section 3). *)
Record User : Type := {
  budget : option Q;
  total_spent : Q
}.

(** Modelled from the spec: the document store, users by id, expenses and
    transactions newest first. *)
Record Store : Type := {
  users : gmap string User;
  expenses : list Expense;
  transactions : list Transaction;
  next_id : nat
}.

Definition empty_store : Store :=
  {| users := ∅; expenses := []; transactions := []; next_id := O |}.

Definition sumQ (l : list Q) : Q := fold_right Qplus 0 l.

(** Modelled from the spec: the sum of the amounts of the expenses a user
    owns (section 3, the right-hand side of the [total_spent] invariant). *)
Definition spent (uid : string) (es : list Expense) : Q :=
  sumQ (map amount (filter (λ e, user_id e = uid) es)).

(** The cached total of a user; a user who is not registered has spent
    nothing. *)
Definition total_spent_of (uid : string) (st : Store) : Q :=
  match users st !! uid with
  | Some u => total_spent u
  | None => 0
  end.

(** Modelled from the spec: Budget Tracker [apply(user, delta)] of section
    4.3, one update of the user's document. *)
Definition apply (uid : string) (delta : Q) (us : gmap string User) : gmap string User :=
  alter (λ u, {| budget := budget u; total_spent := total_spent u + delta |}) uid us.

(** Modelled from the spec: [isOverBudget(user)] of section 4.3. *)
Definition isOverBudget (u : User) : bool :=
  match budget u with
  | Some b => negb (Qle_bool (total_spent u) b)
  | None => false
  end.

(** Modelled from the spec: user registration, whose response in
    [API_DOCUMENTATION.md] carries [total_spent: 0.0]. *)
Definition registerUser (uid : string) (b : option Q) (st : Store) : Result Store :=
  match users st !! uid with
  | Some _ => Err ValidationError
  | None =>
      Ok {| users := <[uid := {| budget := b; total_spent := 0 |}]> (users st);
            expenses := expenses st;
            transactions := transactions st;
            next_id := next_id st |}
  end.

Record ExpenseFields : Type := {
  f_title : string;
  f_category : string;
  f_amount : Q;
  f_merchant : option string;
  f_provenance : option Provenance
}.

Definition valid_fields (f : ExpenseFields) : bool :=
  negb (Qle_bool (f_amount f) 0) && negb (String.eqb (f_category f) "").

(** Modelled from the spec: [createExpense(user, fields)] of section 4.2. *)
Definition createExpense (uid : string) (f : ExpenseFields) (now : Timestamp)
    (st : Store) : Result Store :=
  if valid_fields f then
    match users st !! uid with
    | None => Err NotFound
    | Some _ =>
        let e := {| id := next_id st;
                    user_id := uid;
                    title := f_title f;
                    category := f_category f;
                    amount := f_amount f;
                    created_at := now;
                    merchant := f_merchant f;
                    provenance := f_provenance f |} in
        Ok {| users := apply uid (f_amount f) (users st);
              expenses := e :: expenses st;
              transactions := transactions st;
              next_id := S (next_id st) |}
    end
  else Err ValidationError.

(** Modelled from the spec: the lookup and the removal of an expense by
    id, as [deleteExpense] needs them. *)
Fixpoint find_expense (eid : nat) (es : list Expense) : option Expense :=
  match es with
  | [] => None
  | e :: rest => if Nat.eqb (id e) eid then Some e else find_expense eid rest
  end.

Fixpoint remove_expense (eid : nat) (es : list Expense) : list Expense :=
  match es with
  | [] => []
  | e :: rest => if Nat.eqb (id e) eid then rest else e :: remove_expense eid rest
  end.

(** Modelled from the spec: [deleteExpense(user, expenseId)] of section
    4.2, with its mandatory ownership check. *)
Definition deleteExpense (uid : string) (eid : nat) (st : Store) : Result Store :=
  match find_expense eid (expenses st) with
  | None => Err NotFound
  | Some e =>
      if String.eqb (user_id e) uid then
        Ok {| users := apply uid (- amount e) (users st);
              expenses := remove_expense eid (expenses st);
              transactions := transactions st;
              next_id := next_id st |}
      else Err NotFound
  end.

Record TransactionFields : Type := {
  tf_expense_id : option nat;
  tf_category : string;
  tf_amount : Q;
  tf_description : string
}.

(** Modelled from the spec: [createTransaction(user, fields)] of section
    4.2; it leaves [total_spent] alone. *)
Definition createTransaction (uid : string) (f : TransactionFields) (now : Timestamp)
    (st : Store) : Result Store :=
  match users st !! uid with
  | None => Err NotFound
  | Some _ =>
      let t := {| tx_id := next_id st;
                  tx_user_id := uid;
                  tx_expense_id := tf_expense_id f;
                  tx_category := tf_category f;
                  tx_amount := tf_amount f;
                  tx_description := tf_description f;
                  tx_created_at := now |} in
      Ok {| users := users st;
            expenses := expenses st;
            transactions := t :: transactions st;
            next_id := S (next_id st) |}
  end.

(** Modelled from the spec: [listExpenses(user, limit, skip)]. *)
Definition listExpenses (uid : string) (limit skip : nat) (st : Store) : list Expense :=
  take limit (drop skip (filter (λ e, user_id e = uid) (expenses st))).

(** The mutating requests a client can send. *)
Inductive Request : Type :=
  | Register (uid : string) (b : option Q)
  | CreateExpense (uid : string) (f : ExpenseFields) (now : Timestamp)
  | DeleteExpense (uid : string) (eid : nat)
  | CreateTransaction (uid : string) (f : TransactionFields) (now : Timestamp).

Definition handle (r : Request) (st : Store) : Result Store :=
  match r with
  | Register uid b => registerUser uid b st
  | CreateExpense uid f now => createExpense uid f now st
  | DeleteExpense uid eid => deleteExpense uid eid st
  | CreateTransaction uid f now => createTransaction uid f now st
  end.

(** A request that fails commits nothing. *)
Definition commit (st : Store) (r : Request) : Store :=
  match handle r st with
  | Ok st' => st'
  | Err _ => st
  end.

(** The stores after each request of a sequence, in order. *)
Fixpoint trace (st : Store) (rs : list Request) : list Store :=
  match rs with
  | [] => []
  | r :: rest => commit st r :: trace (commit st r) rest
  end.

(** The cached totals agree with the ledger, and every expense has a
    registered owner. *)
Definition consistent (st : Store) : Prop :=
  (∀ uid, total_spent_of uid st == spent uid (expenses st))
  ∧ (∀ e, e ∈ expenses st → is_Some (users st !! user_id e)).

(** A sample run: two expenses are created, another user tries to delete
    the first, then its owner deletes it. *)
Definition sample_time : Timestamp :=
  {| year := 2024; month := 3; day := 15; seconds := 0 |}.

Definition sample_fields (c : string) (a : Q) : ExpenseFields :=
  {| f_title := "Lunch"; f_category := c; f_amount := a;
     f_merchant := None; f_provenance := Some manual |}.

Definition sample_requests : list Request :=
  [ Register "ann" (Some 1000);
    Register "bob" None;
    CreateExpense "ann" (sample_fields "Food" 42.5) sample_time;
    CreateExpense "ann" (sample_fields "Travel" 10) sample_time;
    DeleteExpense "bob" 0;
    DeleteExpense "ann" 0 ].

End Ledger.

(** ** The aggregation engine (spec section 4.4) *)

Module Aggregation.
Import Ledger.
Local Open Scope Q_scope.

(** The summed amount of the expenses of one category. *)
Definition category_sum (c : string) (es : list Expense) : Q :=
  sumQ (map amount (filter (λ e, category e = c) es)).

(** Modelled from the spec: grouping by category. An amount is added to
    the group of its category; a category without a group opens one. *)
Fixpoint add_to_group (c : string) (a : Q) (groups : list (string * Q)) : list (string * Q) :=
  match groups with
  | [] => [(c, a)]
  | (c', s) :: rest =>
      if String.eqb c c' then (c', s + a) :: rest
      else (c', s) :: add_to_group c a rest
  end.

Definition group_by_category (es : list Expense) : list (string * Q) :=
  fold_right (λ e groups, add_to_group (category e) (amount e) groups) [] es.

(** Modelled from the spec: sorting the groups by descending sum. *)
Fixpoint insert_desc (g : string * Q) (sorted : list (string * Q)) : list (string * Q) :=
  match sorted with
  | [] => [g]
  | h :: rest =>
      if Qle_bool (snd h) (snd g) then g :: h :: rest
      else h :: insert_desc g rest
  end.

Definition sort_desc (groups : list (string * Q)) : list (string * Q) :=
  fold_right insert_desc [] groups.

(** Modelled from the spec: the category breakdown of section 4.4: group by
    category, sum the amounts of each group, sort by descending sum, and
    keep the top [n] groups when a limit is given. *)
Definition categoryBreakdown (top : option nat) (es : list Expense) : list (string * Q) :=
  let sorted := sort_desc (group_by_category es) in
  match top with
  | Some n => take n sorted
  | None => sorted
  end.

(** Modelled from the spec: the percentage of the total, 0 for an empty
    total. *)
Definition percentage_of_total (group_sum total : Q) : Q :=
  if Qeq_bool total 0 then 0 else group_sum / total * 100.

(** Modelled from the spec: grouping by [(year, month)]. Months are
    counted from year 0: January of year [y] is [12 * y]. *)
Definition month_index (t : Timestamp) : Z :=
  (12 * year t + (month t - 1))%Z.

Definition month_of_index (i : Z) : Z * Z :=
  ((i / 12)%Z, (i mod 12 + 1)%Z).

(** The amount spent in the month of index [i]. *)
Definition spent_in_month (i : Z) (es : list Expense) : Q :=
  sumQ (map amount (filter (λ e, month_index (created_at e) = i) es)).

(** Modelled from the spec: the monthly trend of section 4.4 over the [n]
    trailing months that end with the month of [now], oldest first; a
    month without expenses carries 0. *)
Definition monthlyTrend (now : Timestamp) (n : nat) (es : list Expense) : list ((Z * Z) * Q) :=
  map (λ i, (month_of_index i, spent_in_month i es))
      (seqZ (month_index now - Z.of_nat n + 1) (Z.of_nat n)).

(** The inverse of [month_of_index] on a (year, month) pair. *)
Definition index_of_month (ym : Z * Z) : Z :=
  (12 * fst ym + (snd ym - 1))%Z.

(** Chronological order on (year, month) pairs. *)
Definition earlier (a b : Z * Z) : Prop :=
  (fst a < fst b ∨ (fst a = fst b ∧ snd a < snd b))%Z.

End Aggregation.

(** ** The chat context builder (spec section 4.5) *)

Module Chat.
Import Ledger.

Inductive Role : Type := user_role | assistant_role.

(** Modelled from the spec: the ChatTurn record of section 3. *)
Record ChatTurn : Type := {
  role : Role;
  text : string;
  turn_created_at : Timestamp
}.

(** Modelled from the spec: the conversation of every user, oldest turn
    first, and the configured window. *)
Record Histories : Type := {
  max_turns : nat;
  turns : gmap string (list ChatTurn)
}.

Definition history_of (uid : string) (h : Histories) : list ChatTurn :=
  default [] (turns h !! uid).

(** Modelled from the spec: a turn is appended and the oldest turns beyond
    the window are dropped. *)
Definition appendTurn (uid : string) (t : ChatTurn) (h : Histories) : Histories :=
  let all := (history_of uid h ++ [t])%list in
  {| max_turns := max_turns h;
     turns := <[uid := drop (length all - max_turns h) all]> (turns h) |}.

(** Modelled from the spec: [clearHistory(user)] of section 4.5, the
    handler of [DELETE /summary/chat]. *)
Definition clearHistory (uid : string) (h : Histories) : Result Histories :=
  Ok {| max_turns := max_turns h; turns := delete uid (turns h) |}.

End Chat.

(** ** Sequences of responses through the client *)

Module ApiSession.
Import Js Api.

(** The browser after each of a sequence of responses has gone through the
    response interceptors of [api.ts], in order. *)
Definition receive_all (rs : list Response) (b : Browser) : Browser :=
  fold_left (λ b r, fst (receive r b)) rs b.

(** A response that resolves: its status is 0 or passes
    [validateStatus]. *)
Definition resolves (r : Response) : bool :=
  (status r =? 0) || validateStatus (status r).

End ApiSession.

(** ** The authentication context ([frontend/src/contexts/AuthContext.tsx]) *)

Module AuthContext.
Import Js Api.

(** [localStorage.setItem(key, value)]. *)
Definition setItem (key value : string) (b : Browser) : Browser :=
  {| localStorage := <[key := value]> (localStorage b);
     location_href := location_href b |}.

(** What comes back for a request sent through the client: a response, or
    no response at all (a network failure). *)
Inductive Arrival : Type :=
  | Answered (r : Response)
  | Unanswered (reason : string).

(** The response interceptors applied to what came back. *)
Definition deliver (a : Arrival) (b : Browser)
  : Browser * Settled Response AxiosError :=
  match a with
  | Answered r => receive r b
  | Unanswered reason =>
      responseErrorInterceptor {| message := reason; response := None |} b
  end.

Section Provider.

(** The provider stores the user object and hands it on without looking
    into it. [JSON.stringify], [JSON.parse] ([None] when it throws a
    [SyntaxError]), the decoded body [response.data] of an answer and the
    [data.message] field of an error answer are taken as given. *)
Context {U : Type}.

Record AuthResponse : Type := {
  response_user : U;
  access_token : string
}.

Variable JSON_stringify : U → string.
Variable JSON_parse : string → option U.
Variable response_data : Response → AuthResponse.
Variable data_message : Response → option string.

(** The provider state: [user], [token], [loading]. *)
Record AuthState : Type := {
  user : option U;
  token : option string;
  loading : bool
}.

Definition initialState : AuthState :=
  {| user := None; token := None; loading := true |}.

(** The result of an effect that may throw. *)
Inductive Outcome : Type :=
  | Done (st : AuthState)
  | Throws.

(** The mount effect, lines 24-34. *)
Definition restoreSession (b : Browser) (st : AuthState) : Outcome :=
  match getItem "token" b, getItem "user" b with
  | Some storedToken, Some storedUser =>
      if truthy_string storedToken && truthy_string storedUser then
        match JSON_parse storedUser with
        | Some u =>
            Done {| user := Some u; token := Some storedToken; loading := false |}
        | None => Throws
        end
      else Done {| user := user st; token := token st; loading := false |}
  | _, _ => Done {| user := user st; token := token st; loading := false |}
  end.

(** [error.response?.data?.message || fallback]. *)
Definition error_text (fallback : string) (error : AxiosError) : string :=
  match response error with
  | Some r =>
      match data_message r with
      | Some m => if truthy_string m then m else fallback
      | None => fallback
      end
  | None => fallback
  end.

(** [login], lines 36-55: the answer of [authAPI.login] settles the call. *)
Definition login (a : Arrival) (b : Browser) (st : AuthState)
  : Browser * AuthState * Settled unit string :=
  let '(b1, outcome) := deliver a b in
  match outcome with
  | Fulfilled r =>
      let userData := response_user (response_data r) in
      let access_token := access_token (response_data r) in
      (setItem "user" (JSON_stringify userData) (setItem "token" access_token b1),
       {| user := Some userData; token := Some access_token; loading := false |},
       Fulfilled tt)
  | Rejected error =>
      (b1,
       {| user := user st; token := token st; loading := false |},
       Rejected (error_text "Login failed" error))
  end.

(** [register], lines 57-76: the answer of [authAPI.register] settles the
    call. *)
Definition register (a : Arrival) (b : Browser) (st : AuthState)
  : Browser * AuthState * Settled unit string :=
  let '(b1, outcome) := deliver a b in
  match outcome with
  | Fulfilled r =>
      let newUser := response_user (response_data r) in
      let access_token := access_token (response_data r) in
      (setItem "user" (JSON_stringify newUser) (setItem "token" access_token b1),
       {| user := Some newUser; token := Some access_token; loading := false |},
       Fulfilled tt)
  | Rejected error =>
      (b1,
       {| user := user st; token := token st; loading := false |},
       Rejected (error_text "Registration failed" error))
  end.

(** [logout], lines 78-83. *)
Definition logout (b : Browser) (st : AuthState) : Browser * AuthState :=
  (removeItem "user" (removeItem "token" b),
   {| user := None; token := None; loading := loading st |}).

End Provider.

Global Arguments AuthResponse U : clear implicits.
Global Arguments AuthState U : clear implicits.
Global Arguments Outcome U : clear implicits.

End AuthContext.

(** ** The demo authentication context ([contexts/AuthContextMock.tsx],
    carried by [frontend/src/types/index.ts] from line 66 on) *)

Module AuthContextMock.
Import Js Dashboard.
Local Open Scope float_scope.

(** [RegisterData] of [types/index.ts]. *)
Record RegisterData : Type := {
  rd_username : string;
  rd_email : string;
  rd_password : string;
  rd_full_name : option string;
  rd_budget : option float
}.

Record AuthState : Type := {
  user : option User;
  token : option string;
  loading : bool
}.

(** [userData.full_name || userData.username]. *)
Definition full_name_or_username (userData : RegisterData) : string :=
  match rd_full_name userData with
  | Some n => if truthy_string n then n else rd_username userData
  | None => rd_username userData
  end.

(** [userData.budget || 2000]. *)
Definition budget_or_default (userData : RegisterData) : float :=
  match rd_budget userData with
  | Some b => if truthy_number b then b else 2000
  | None => 2000
  end.

(** [login], lines 108-115. *)
Definition login (st : AuthState) : AuthState :=
  {| user := Some DashboardMock.mockUser; token := Some "mock-token"; loading := false |}.

(** [register], lines 117-131. *)
Definition register (userData : RegisterData) (st : AuthState) : AuthState :=
  let newUser :=
    {| id := id DashboardMock.mockUser;
       username := rd_username userData;
       email := rd_email userData;
       full_name := Some (full_name_or_username userData);
       budget := Some (budget_or_default userData);
       created_at := created_at DashboardMock.mockUser |} in
  {| user := Some newUser; token := Some "mock-token"; loading := false |}.

(** [logout], lines 133-136. *)
Definition logout (st : AuthState) : AuthState :=
  {| user := None; token := None; loading := loading st |}.

End AuthContextMock.

(** ** What the dashboard page shows ([frontend/src/pages/Dashboard.tsx],
    lines 54-61 and 79-283) *)

Module DashboardPage.
Import Js Dashboard.
Local Open Scope float_scope.

(** [COLORS], line 74. *)
Definition COLORS : list string :=
  ["#22c55e"; "#16a34a"; "#15803d"; "#166534"; "#14532d"; "#052e16"].

(** [COLORS[index % COLORS.length]], line 189: [None] is [undefined]. *)
Definition cellFill (index : nat) : option string :=
  COLORS !! (index mod length COLORS)%nat.

(** [ToBoolean] on a rendered number, a string. *)
Definition truthy_text (t : NumberText) : bool :=
  match t with
  | Text s => truthy_string s
  | Exponent _ => true
  end.

(** [user?.full_name || user?.username], line 86: [None] is [undefined]. *)
Definition welcomeName (user : option User) : option string :=
  match user with
  | Some u =>
      match full_name u with
      | Some n => if truthy_string n then Some n else Some (username u)
      | None => Some (username u)
      end
  | None => None
  end.

(** [summary?.total_spent?.toFixed(2) || '0.00'], line 110. *)
Definition totalSpentText (summary : option SpendingSummary) : NumberText :=
  match summary with
  | Some s =>
      let t := toFixed (total_spent s) 2 in
      if truthy_text t then t else Text "0.00"
  | None => Text "0.00"
  end.

(** [summary?.total_transactions || 0], line 125. *)
Definition transactionCount (summary : option SpendingSummary) : float :=
  match summary with
  | Some s =>
      if truthy_number (total_transactions s) then total_transactions s else 0
  | None => 0
  end.

(** A chart, or the note shown in its place. *)
Inductive Panel (A : Type) : Type :=
  | Plot (cells : list A)
  | Note (text : string).
Global Arguments Plot {A} cells.
Global Arguments Note {A} text.

(** The pie chart, lines 175-203: one cell per entry, filled by index. *)
Definition categoryPanel (summary : option SpendingSummary)
  : Panel (CategoryDatum * option string) :=
  let data := categoryData summary in
  if (0 <? length data)%nat
  then Plot (imap (λ index entry, (entry, cellFill index)) data)
  else Note "No expense data available".

(** The bar chart, lines 216-240. *)
Definition monthlyPanel (summary : option SpendingSummary) : Panel MonthDatum :=
  let data := monthlyData summary in
  if (0 <? length data)%nat then Plot data else Note "No monthly data available".

(** A row of the recent expenses, lines 257-273. The date label depends on
    the browser locale and is left out; the merchant line is rendered only
    for a truthy merchant. *)
Record ExpenseRow : Type := {
  row_key : string;
  row_description : string;
  row_category : string;
  row_amount : NumberText;
  row_merchant : option string
}.

Definition expenseRow (e : Expense) : ExpenseRow :=
  {| row_key := expense_id e;
     row_description := description e;
     row_category := category e;
     row_amount := toFixed (amount e) 2;
     row_merchant :=
       match merchant e with
       | Some m => if truthy_string m then Some m else None
       | None => None
       end |}.

(** The recent expenses, lines 254-280. *)
Definition recentPanel (recent : list Expense) : Panel ExpenseRow :=
  if (0 <? length recent)%nat
  then Plot (map expenseRow recent)
  else Note "No expenses recorded yet. Start by adding your first expense!".

Record Page : Type := {
  welcome : option string;
  totalSpent : NumberText;
  transactions : float;
  budgetCard : BudgetStatus;
  average : NumberText;
  categoryChart : Panel (CategoryDatum * option string);
  monthlyChart : Panel MonthDatum;
  recent : Panel ExpenseRow
}.

(** What the component returns: the spinner while loading, lines 54-60,
    the page otherwise. *)
Inductive View : Type :=
  | Spinner
  | Shown (p : Page).

Definition render (st : State) (user : option User) : View :=
  if loading st then Spinner
  else Shown {| welcome := welcomeName user;
                totalSpent := totalSpentText (summary st);
                transactions := transactionCount (summary st);
                budgetCard := budgetStatus (summary st) user;
                average := avgPerDay (summary st);
                categoryChart := categoryPanel (summary st);
                monthlyChart := monthlyPanel (summary st);
                recent := recentPanel (recentExpenses st) |}.

End DashboardPage.

(** ** A sample server for the authentication context *)

Module AuthSample.
Import Js Api AuthContext.

(** A stand-in for [JSON.stringify] on users: the username in braces. *)
Definition stringify (u : Dashboard.User) : string :=
  "{" ++ Dashboard.username u ++ "}".

(** Its inverse on the demo user; anything else fails to parse. *)
Definition parse (s : string) : option Dashboard.User :=
  if String.eqb s (stringify DashboardMock.mockUser)
  then Some DashboardMock.mockUser
  else None.

(** Every successful answer carries the demo user and the body as token. *)
Definition response_data (r : Response) : AuthResponse Dashboard.User :=
  {| response_user := DashboardMock.mockUser; access_token := body r |}.

(** An error answer carries its body as message. *)
Definition data_message (r : Response) : option string := Some (body r).

Definition signed_out : Browser :=
  {| localStorage := {["theme" := "dark"]}; location_href := "/login" |}.

Definition accepted : Response := {| status := 200; body := "eyJ0eXAi" |}.

Definition refused : Response := {| status := 401; body := "Invalid credentials" |}.

End AuthSample.

(** * Properties *)

(** ** Ledger consistency *)

Section LedgerInvariant.
Import Ledger.
Local Open Scope Q_scope.

Lemma spent_cons (uid : string) (e : Expense) (es : list Expense) :
  spent uid (e :: es) =
  if decide (user_id e = uid) then amount e + spent uid es else spent uid es.
Proof.
  unfold spent. rewrite filter_cons. destruct (decide (user_id e = uid)); reflexivity.
Qed.

Lemma find_expense_elem (eid : nat) (es : list Expense) (e : Expense) :
  find_expense eid es = Some e → e ∈ es.
Proof.
  induction es as [|x es IH]; simpl; [discriminate|].
  destruct (Nat.eqb (id x) eid).
  - intros [= ->]. apply list_elem_of_here.
  - intros H. apply list_elem_of_further, IH, H.
Qed.

Lemma remove_expense_subset (eid : nat) (es : list Expense) (x : Expense) :
  x ∈ remove_expense eid es → x ∈ es.
Proof.
  induction es as [|y es IH]; simpl; [tauto|].
  destruct (Nat.eqb (id y) eid).
  - apply list_elem_of_further.
  - intros [->|H]%elem_of_cons; [apply list_elem_of_here|].
    apply list_elem_of_further, IH, H.
Qed.

(** Removing an expense lowers the owner's sum by its amount and nobody
    else's. *)
Lemma spent_remove (uid : string) (eid : nat) (es : list Expense) (e : Expense) :
  find_expense eid es = Some e →
  spent uid (remove_expense eid es)
  == spent uid es + (if decide (user_id e = uid) then - amount e else 0).
Proof.
  induction es as [|x es IH]; simpl; [discriminate|].
  destruct (Nat.eqb (id x) eid).
  - intros [= ->]. rewrite spent_cons.
    destruct (decide (user_id e = uid)); ring.
  - intros H. rewrite !spent_cons.
    destruct (decide (user_id x = uid)); rewrite (IH H); ring.
Qed.

Lemma consistent_empty : consistent empty_store.
Proof.
  split.
  - intros uid. unfold total_spent_of, empty_store; simpl.
    rewrite lookup_empty. reflexivity.
  - intros e H. simpl in H. inversion H.
Qed.

Lemma total_spent_of_apply (uid v : string) (delta : Q) (us : gmap string User) :
  is_Some (us !! uid) →
  match apply uid delta us !! v with Some u => total_spent u | None => 0 end
  == match us !! v with Some u => total_spent u | None => 0 end
     + (if decide (uid = v) then delta else 0).
Proof.
  intros [u Hu]. unfold apply. rewrite lookup_alter.
  destruct (decide (uid = v)) as [->|Hne].
  - rewrite Hu. simpl. reflexivity.
  - destruct (us !! v); ring.
Qed.

Lemma consistent_register uid b st st' :
  consistent st → registerUser uid b st = Ok st' → consistent st'.
Proof.
  intros [Htot Hown]. unfold registerUser.
  destruct (users st !! uid) eqn:Hu; [discriminate|].
  intros [= <-]. split.
  - intros v. unfold total_spent_of. simpl.
    specialize (Htot v). unfold total_spent_of in Htot.
    destruct (decide (uid = v)) as [->|Hne].
    + rewrite lookup_insert_eq. simpl. rewrite Hu in Htot. exact Htot.
    + rewrite lookup_insert_ne by exact Hne. exact Htot.
  - intros e He. simpl in *. specialize (Hown e He).
    destruct (decide (uid = user_id e)) as [->|Hne].
    + rewrite lookup_insert_eq. eauto.
    + rewrite lookup_insert_ne by exact Hne. exact Hown.
Qed.

Lemma is_Some_apply uid delta (us : gmap string User) v :
  is_Some (us !! v) → is_Some (apply uid delta us !! v).
Proof.
  intros [u Hu]. unfold apply. rewrite lookup_alter.
  destruct (decide (uid = v)) as [->|Hne]; rewrite Hu; simpl; eauto.
Qed.

Lemma consistent_create uid f now st st' :
  consistent st → createExpense uid f now st = Ok st' → consistent st'.
Proof.
  intros [Htot Hown]. unfold createExpense.
  destruct (valid_fields f); [|discriminate].
  destruct (users st !! uid) as [u|] eqn:Hu; [|discriminate].
  intros [= <-]. split.
  - intros v. unfold total_spent_of. simpl.
    rewrite (total_spent_of_apply uid v (f_amount f)) by eauto.
    rewrite spent_cons. simpl.
    specialize (Htot v). unfold total_spent_of in Htot. rewrite Htot.
    destruct (decide (uid = v)); ring.
  - intros e He. simpl in *. apply is_Some_apply.
    apply elem_of_cons in He as [->|He]; simpl; eauto.
Qed.

Lemma consistent_delete uid eid st st' :
  consistent st → deleteExpense uid eid st = Ok st' → consistent st'.
Proof.
  intros [Htot Hown]. unfold deleteExpense.
  destruct (find_expense eid (expenses st)) as [e|] eqn:Hf; [|discriminate].
  destruct (String.eqb (user_id e) uid) eqn:Hu; [|discriminate].
  apply String.eqb_eq in Hu. intros [= <-].
  assert (Hreg : is_Some (users st !! uid)).
  { rewrite <- Hu. apply Hown. eapply find_expense_elem, Hf. }
  split.
  - intros v. unfold total_spent_of. simpl.
    rewrite (total_spent_of_apply uid v (- amount e)) by exact Hreg.
    rewrite (spent_remove v eid _ e Hf).
    specialize (Htot v). unfold total_spent_of in Htot. rewrite Htot.
    rewrite Hu. reflexivity.
  - intros x Hx. simpl in *. apply is_Some_apply, Hown.
    eapply remove_expense_subset, Hx.
Qed.

Lemma consistent_transaction uid f now st st' :
  consistent st → createTransaction uid f now st = Ok st' → consistent st'.
Proof.
  intros Hc. unfold createTransaction.
  destruct (users st !! uid); [|discriminate].
  intros [= <-]. exact Hc.
Qed.

Lemma consistent_commit (st : Store) (r : Request) :
  consistent st → consistent (commit st r).
Proof.
  intros Hc. unfold commit.
  destruct (handle r st) as [st'|err] eqn:Hh; [|exact Hc].
  destruct r; simpl in Hh.
  - eapply consistent_register; eauto.
  - eapply consistent_create; eauto.
  - eapply consistent_delete; eauto.
  - eapply consistent_transaction; eauto.
Qed.

Lemma consistent_trace (rs : list Request) (st : Store) :
  consistent st → Forall consistent (trace st rs).
Proof.
  revert st. induction rs as [|r rs IH]; intros st Hc; simpl.
  - constructor.
  - constructor; [|apply IH]; apply consistent_commit, Hc.
Qed.

(** C1. Over every sequence of requests sent to an empty store, after each
    committed request the cached [total_spent] of every user equals the sum
    of the amounts of the expenses that user still owns; and registering a
    new user in any such store succeeds and leaves that user with no
    expenses and a [total_spent] of 0. *)
Theorem total_spent_invariant (rs : list Ledger.Request) :
  Forall (λ st, ∀ uid,
            Ledger.total_spent_of uid st == Ledger.spent uid (Ledger.expenses st))
         (Ledger.trace Ledger.empty_store rs)
  ∧ Forall (λ st, ∀ uid b,
              Ledger.users st !! uid = None →
              ∃ st', Ledger.registerUser uid b st = Ledger.Ok st'
                     ∧ Ledger.total_spent_of uid st' = 0
                     ∧ Ledger.listExpenses uid (length (Ledger.expenses st')) 0 st' = [])
           (Ledger.empty_store :: Ledger.trace Ledger.empty_store rs).
Proof.
  pose proof (consistent_trace rs empty_store consistent_empty) as Hall.
  split.
  - eapply Forall_impl; [exact Hall|]. intros st [Htot _]. exact Htot.
  - assert (Hall' : Forall consistent (empty_store :: trace empty_store rs)).
    { constructor; [apply consistent_empty | exact Hall]. }
    eapply Forall_impl; [exact Hall'|].
    intros st [Htot Hown] uid b Hnone.
    unfold registerUser. rewrite Hnone. eexists. split; [reflexivity|].
    split.
    + unfold total_spent_of. simpl. rewrite lookup_insert_eq. reflexivity.
    + unfold listExpenses. simpl. rewrite drop_0.
      assert (Hnil : filter (λ e, user_id e = uid) (expenses st) = []).
      { apply elem_of_nil_inv. intros e [Hp He]%list_elem_of_filter.
        destruct (Hown e He) as [u Hu]. congruence. }
      rewrite Hnil. apply take_nil.
Qed.

(** The sample run: the totals and the ledger after each request, and the
    rejected cross-user deletion. *)
Example sample_run :
  map (total_spent_of "ann") (trace empty_store sample_requests)
    = [0; 0; 0 + 42.5; 0 + 42.5 + 10; 0 + 42.5 + 10; 0 + 42.5 + 10 + - 42.5]
  ∧ map (λ st, map id (expenses st)) (trace empty_store sample_requests)
    = [[]; []; [0%nat]; [1%nat; 0%nat]; [1%nat; 0%nat]; [1%nat]]
  ∧ deleteExpense "bob" 0 (commit (commit (commit empty_store
        (Register "ann" None)) (Register "bob" None))
        (CreateExpense "ann" (sample_fields "Food" 42.5) sample_time))
    = Err NotFound.
Proof. repeat split; vm_compute; reflexivity. Qed.

End LedgerInvariant.

(** ** Aggregation *)

Section AggregationFacts.
Import Ledger Aggregation.
Local Open Scope Q_scope.

Lemma sum_add_to_group (c : string) (a : Q) (groups : list (string * Q)) :
  sumQ (map snd (add_to_group c a groups)) == a + sumQ (map snd groups).
Proof.
  induction groups as [|[c' s] rest IH]; simpl.
  - reflexivity.
  - destruct (String.eqb c c'); simpl.
    + ring.
    + rewrite IH. ring.
Qed.

Lemma sum_group_by_category (es : list Expense) :
  sumQ (map snd (group_by_category es)) == sumQ (map amount es).
Proof.
  induction es as [|e es IH]; simpl.
  - reflexivity.
  - rewrite sum_add_to_group, IH. reflexivity.
Qed.

Lemma sum_insert_desc (g : string * Q) (sorted : list (string * Q)) :
  sumQ (map snd (insert_desc g sorted)) == snd g + sumQ (map snd sorted).
Proof.
  induction sorted as [|h rest IH]; simpl.
  - reflexivity.
  - destruct (Qle_bool (snd h) (snd g)); simpl.
    + reflexivity.
    + rewrite IH. ring.
Qed.

Lemma sum_sort_desc (groups : list (string * Q)) :
  sumQ (map snd (sort_desc groups)) == sumQ (map snd groups).
Proof.
  induction groups as [|g rest IH]; simpl.
  - reflexivity.
  - rewrite sum_insert_desc, IH. reflexivity.
Qed.

Lemma breakdown_sum (es : list Expense) :
  sumQ (map snd (categoryBreakdown None es)) == sumQ (map amount es).
Proof.
  unfold categoryBreakdown. rewrite sum_sort_desc. apply sum_group_by_category.
Qed.

(** The total carried by the groups of one category. *)
Lemma sum_of_category_add (c c0 : string) (a : Q) (groups : list (string * Q)) :
  sumQ (map snd (filter (λ g, fst g = c) (add_to_group c0 a groups)))
  == sumQ (map snd (filter (λ g, fst g = c) groups))
     + (if decide (c0 = c) then a else 0).
Proof.
  induction groups as [|[c' s] rest IH]; simpl.
  - rewrite filter_cons. simpl. destruct (decide (c0 = c)); simpl; ring.
  - destruct (String.eqb c0 c') eqn:E.
    + apply String.eqb_eq in E. subst c'. rewrite !filter_cons. simpl.
      destruct (decide (c0 = c)); simpl; ring.
    + apply String.eqb_neq in E. rewrite !filter_cons. simpl.
      destruct (decide (c' = c)); simpl; rewrite IH; ring.
Qed.

Lemma sum_of_category (c : string) (es : list Expense) :
  sumQ (map snd (filter (λ g, fst g = c) (group_by_category es)))
  == category_sum c es.
Proof.
  unfold category_sum. induction es as [|e es IH]; simpl.
  - reflexivity.
  - rewrite sum_of_category_add, IH, filter_cons.
    destruct (decide (category e = c)); simpl; ring.
Qed.

Lemma add_to_group_keys (c : string) (a : Q) (groups : list (string * Q)) :
  map fst (add_to_group c a groups)
  = if decide (c ∈ map fst groups) then map fst groups
    else (map fst groups ++ [c])%list.
Proof.
  induction groups as [|[c' s] rest IH].
  - destruct (decide (c ∈ map fst (@nil (string * Q)))) as [H|H];
      [inversion H|reflexivity].
  - cbn [add_to_group]. destruct (String.eqb c c') eqn:E.
    + apply String.eqb_eq in E. subst c'.
      destruct (decide (c ∈ map fst ((c, s) :: rest))) as [H|H]; [reflexivity|].
      exfalso. apply H. apply list_elem_of_here.
    + apply String.eqb_neq in E. cbn [map fst]. rewrite IH.
      destruct (decide (c ∈ map fst rest)) as [Hin|Hout];
        destruct (decide (c ∈ c' :: map fst rest)) as [Hin'|Hout'];
        try reflexivity.
      * exfalso. apply Hout'. apply list_elem_of_further, Hin.
      * exfalso. apply elem_of_cons in Hin' as [Heq|Hin']; contradiction.
Qed.

(** Every category has one group. *)
Lemma group_keys_NoDup (es : list Expense) :
  NoDup (map fst (group_by_category es)).
Proof.
  induction es as [|e es IH]; simpl.
  - constructor.
  - rewrite add_to_group_keys.
    destruct (decide (category e ∈ map fst (group_by_category es))) as [Hin|Hout].
    + exact IH.
    + apply NoDup_app. split; [exact IH|]. split.
      * intros x Hx [->|H]%elem_of_cons; [contradiction|]. inversion H.
      * apply NoDup_singleton.
Qed.

Lemma unique_group_sum (groups : list (string * Q)) (c : string) (s : Q) :
  NoDup (map fst groups) → (c, s) ∈ groups →
  sumQ (map snd (filter (λ g, fst g = c) groups)) == s.
Proof.
  induction groups as [|[c' s'] rest IH]; intros Hnd Hin.
  - inversion Hin.
  - simpl in Hnd. apply NoDup_cons in Hnd as [Hout Hnd].
    rewrite filter_cons. simpl.
    apply elem_of_cons in Hin as [[= <- <-]|Hin].
    + rewrite decide_True by reflexivity. simpl.
      replace (filter (λ g, fst g = c) rest) with (@nil (string * Q)).
      * simpl. ring.
      * symmetry. apply elem_of_nil_inv. intros [k v] [Hk Hkv]%list_elem_of_filter.
        simpl in Hk. subst k. apply Hout.
        apply list_elem_of_fmap. exists (c, v). split; [reflexivity|exact Hkv].
    + rewrite decide_False.
      * apply IH; assumption.
      * intros ->. apply Hout.
        apply list_elem_of_fmap. exists (c, s). split; [reflexivity|exact Hin].
Qed.

Lemma insert_desc_elem (g x : string * Q) (sorted : list (string * Q)) :
  x ∈ insert_desc g sorted ↔ x = g ∨ x ∈ sorted.
Proof.
  induction sorted as [|h rest IH]; simpl.
  - rewrite elem_of_cons. reflexivity.
  - destruct (Qle_bool (snd h) (snd g)).
    + rewrite elem_of_cons. reflexivity.
    + rewrite !elem_of_cons, IH. tauto.
Qed.

Lemma sort_desc_elem (x : string * Q) (groups : list (string * Q)) :
  x ∈ sort_desc groups ↔ x ∈ groups.
Proof.
  induction groups as [|g rest IH]; simpl.
  - reflexivity.
  - rewrite insert_desc_elem, elem_of_cons, IH. reflexivity.
Qed.

(** The amount of a group is the summed amount of its category. *)
Lemma breakdown_group_sum (es : list Expense) (c : string) (s : Q) :
  (c, s) ∈ categoryBreakdown None es → s == category_sum c es.
Proof.
  unfold categoryBreakdown. rewrite sort_desc_elem. intros Hin.
  rewrite <- sum_of_category. symmetry.
  apply unique_group_sum; [apply group_keys_NoDup|exact Hin].
Qed.

(** C4. The group sums of the untruncated category breakdown add up to the
    sum of the amounts of the expenses it was computed from, each group
    carrying the summed amount of its category; for every
    user of every reachable store that is the user's [total_spent]; and
    the category values of the demo dashboard summary add up, in binary64
    arithmetic, to its [total_spent] within 1e-9. *)
Theorem category_breakdown_sums_to_total :
  (∀ es : list Ledger.Expense,
     Ledger.sumQ (map snd (Aggregation.categoryBreakdown None es))
     == Ledger.sumQ (map Ledger.amount es)
     ∧ ∀ c s, (c, s) ∈ Aggregation.categoryBreakdown None es →
              s == Aggregation.category_sum c es)
  ∧ (∀ rs : list Ledger.Request,
       Forall (λ st, ∀ uid,
                 Ledger.sumQ (map snd (Aggregation.categoryBreakdown None
                    (filter (λ e, Ledger.user_id e = uid) (Ledger.expenses st))))
                 == Ledger.total_spent_of uid st)
              (Ledger.trace Ledger.empty_store rs))
  ∧ (PrimFloat.abs
       (DashboardMock.sum_values (Dashboard.categories DashboardMock.mockSummary)
        - Dashboard.total_spent DashboardMock.mockSummary) <? 1e-9)%float = true.
Proof.
  split; [intros es; split; [apply breakdown_sum|apply breakdown_group_sum]|].
  split.
  - intros rs.
    eapply Forall_impl; [apply (consistent_trace rs), consistent_empty|].
    intros st [Htot _] uid. rewrite breakdown_sum, Htot. reflexivity.
  - vm_compute. reflexivity.
Qed.

(** The percentage of the specification is 0 on an empty total, and the
    share of the total otherwise. *)
Lemma percentage_of_total_cases (group_sum total : Q) :
  (total == 0 → percentage_of_total group_sum total = 0)
  ∧ (¬ total == 0 → percentage_of_total group_sum total = group_sum / total * 100).
Proof.
  unfold percentage_of_total. split; intros H.
  - apply Qeq_bool_iff in H. rewrite H. reflexivity.
  - destruct (Qeq_bool total 0) eqn:E; [|reflexivity].
    apply Qeq_bool_iff in E. contradiction.
Qed.

Lemma index_of_month_of_index (i : Z) :
  index_of_month (month_of_index i) = i.
Proof.
  unfold index_of_month, month_of_index. simpl.
  pose proof (Z.div_mod i 12). lia.
Qed.

Lemma month_of_index_range (i : Z) :
  (1 ≤ snd (month_of_index i) ≤ 12)%Z.
Proof.
  unfold month_of_index. simpl. pose proof (Z.mod_pos_bound i 12). lia.
Qed.

Lemma month_of_index_mono (i j : Z) :
  (i < j)%Z → earlier (month_of_index i) (month_of_index j).
Proof.
  intros Hij. unfold earlier, month_of_index. simpl.
  pose proof (Z.div_mod i 12). pose proof (Z.div_mod j 12).
  pose proof (Z.mod_pos_bound i 12). pose proof (Z.mod_pos_bound j 12).
  lia.
Qed.

Lemma month_of_index_of_timestamp (t : Timestamp) :
  (1 ≤ month t ≤ 12)%Z → month_of_index (month_index t) = (year t, month t).
Proof.
  intros Hm. unfold month_of_index, month_index.
  assert (Hq : ((12 * year t + (month t - 1)) / 12 = year t)%Z).
  { symmetry. apply (Z.div_unique _ 12 (year t) (month t - 1)); lia. }
  assert (Hr : ((12 * year t + (month t - 1)) mod 12 = month t - 1)%Z).
  { symmetry. apply (Z.mod_unique _ 12 (year t) (month t - 1)); lia. }
  rewrite Hq, Hr. f_equal. lia.
Qed.

Lemma sorted_months (start : Z) (n : nat) :
  StronglySorted earlier (map month_of_index (seqZ start (Z.of_nat n))).
Proof.
  revert start. induction n as [|n IH]; intros start.
  - simpl. constructor.
  - rewrite Nat2Z.inj_succ, seqZ_cons by lia. simpl.
    replace (Z.pred (Z.succ (Z.of_nat n))) with (Z.of_nat n) by lia.
    constructor; [apply IH|].
    apply Forall_forall. intros ym Hin.
    apply list_elem_of_fmap in Hin as (j & -> & Hj).
    apply elem_of_seqZ in Hj. apply month_of_index_mono. lia.
Qed.

Lemma spent_in_month_none (i : Z) (es : list Expense) :
  (∀ e, e ∈ es → month_index (created_at e) ≠ i) → spent_in_month i es = 0.
Proof.
  intros Hno. unfold spent_in_month.
  replace (filter (λ e, month_index (created_at e) = i) es) with (@nil Expense);
    [reflexivity|].
  symmetry. apply elem_of_nil_inv. intros e [Hp He]%list_elem_of_filter.
  exact (Hno e He Hp).
Qed.

(** C5. A trend over [n] trailing months has exactly [n] entries; their
    months are the [n] consecutive calendar months that end with the
    current one, in strictly ascending chronological order; every entry
    carries the amount spent in its month, which is 0 for a month without
    expenses. The dashboard plots the entries of [monthly_summary] as they
    arrive, one bar per entry, in the same order. *)
Theorem monthly_trend_complete (now : Ledger.Timestamp) (n : nat)
    (es : list Ledger.Expense) :
  length (Aggregation.monthlyTrend now n es) = n
  ∧ map (λ entry, Aggregation.index_of_month (fst entry))
        (Aggregation.monthlyTrend now n es)
    = seqZ (Aggregation.month_index now - Z.of_nat n + 1) (Z.of_nat n)
  ∧ StronglySorted Aggregation.earlier
      (map fst (Aggregation.monthlyTrend now n es))
  ∧ Forall (λ entry,
              (1 ≤ snd (fst entry) ≤ 12)%Z
              ∧ snd entry
                = Aggregation.spent_in_month (Aggregation.index_of_month (fst entry)) es
              ∧ ((∀ e, e ∈ es →
                    Aggregation.month_index (Ledger.created_at e)
                    ≠ Aggregation.index_of_month (fst entry)) →
                 snd entry = 0))
           (Aggregation.monthlyTrend now n es)
  ∧ ((1 ≤ Ledger.month now ≤ 12)%Z →
     last (map fst (Aggregation.monthlyTrend now (S n) es))
     = Some (Ledger.year now, Ledger.month now))
  ∧ (∀ s : Dashboard.SpendingSummary,
       map (λ d, (Dashboard.month d, Dashboard.month_amount d))
           (Dashboard.monthlyData (Some s))
       = Dashboard.monthly_summary s).
Proof.
  unfold monthlyTrend.
  set (start := (month_index now - Z.of_nat n + 1)%Z).
  repeat split.
  - rewrite length_map, length_seqZ. lia.
  - rewrite map_map. simpl.
    erewrite map_ext; [apply map_id|].
    intros i. simpl. apply index_of_month_of_index.
  - rewrite map_map. simpl. apply sorted_months.
  - apply Forall_forall. intros entry Hin.
    apply list_elem_of_fmap in Hin as (i & -> & _). simpl.
    rewrite index_of_month_of_index.
    split; [apply month_of_index_range|]. split; [reflexivity|].
    apply spent_in_month_none.
  - intros Hm. rewrite map_map. simpl.
    rewrite seqZ_S, map_app. simpl. rewrite last_snoc. f_equal.
    replace (month_index now - Z.of_nat (S n) + 1 + Z.of_nat n)%Z
      with (month_index now) by lia.
    apply month_of_index_of_timestamp, Hm.
  - intros s. unfold Dashboard.monthlyData. rewrite map_map.
    erewrite map_ext; [apply map_id|]. intros [mth amt]. reflexivity.
Qed.

End AggregationFacts.

(** ** Chat history *)

Section ChatFacts.
Import Ledger Chat.

Lemma history_of_clear (uid v : string) (h h' : Histories) :
  clearHistory uid h = Ok h' →
  history_of v h' = if decide (uid = v) then [] else history_of v h.
Proof.
  intros [= <-]. unfold history_of. simpl. rewrite lookup_delete.
  destruct (decide (uid = v)); reflexivity.
Qed.

(** C7. Clearing a history always succeeds and empties it; clearing again
    succeeds as well and changes nothing; clearing a history that was
    already empty leaves every user's history as it was; and other users'
    histories are never touched. *)
Theorem clearHistory_idempotent (uid : string) (h : Chat.Histories) :
  ∃ h1 h2,
    Chat.clearHistory uid h = Ledger.Ok h1
    ∧ Chat.clearHistory uid h1 = Ledger.Ok h2
    ∧ Chat.history_of uid h1 = []
    ∧ Chat.history_of uid h2 = []
    ∧ h2 = h1
    ∧ (Chat.history_of uid h = [] → ∀ v, Chat.history_of v h1 = Chat.history_of v h)
    ∧ (∀ v, v ≠ uid → Chat.history_of v h1 = Chat.history_of v h).
Proof.
  destruct (clearHistory uid h) as [h1|e] eqn:H1; [|discriminate H1].
  destruct (clearHistory uid h1) as [h2|e] eqn:H2; [|discriminate H2].
  exists h1, h2.
  split; [reflexivity|]. split; [exact H2|].
  split; [|split; [|split; [|split]]].
  - rewrite (history_of_clear uid uid h h1 H1). rewrite decide_True; reflexivity.
  - rewrite (history_of_clear uid uid h1 h2 H2). rewrite decide_True; reflexivity.
  - injection H1 as <-. injection H2 as <-. simpl.
    f_equal. apply delete_delete_eq.
  - intros Hempty v. rewrite (history_of_clear uid v h h1 H1).
    destruct (decide (uid = v)) as [<-|]; [symmetry; exact Hempty|reflexivity].
  - intros v Hv. rewrite (history_of_clear uid v h h1 H1).
    rewrite decide_False; [reflexivity|]. intros ->. apply Hv. reflexivity.
Qed.

(** A history that holds turns is emptied by the first call, and the
    second call finds it empty. *)
Example clearHistory_twice :
  let t := {| role := user_role; text := "How much did I spend on food?";
              turn_created_at := sample_time |} in
  let h := appendTurn "ann" t (appendTurn "ann" t {| max_turns := 20; turns := ∅ |}) in
  length (history_of "ann" h) = 2%nat
  ∧ (h' ← match clearHistory "ann" h with Ok h' => Some h' | Err _ => None end;
     Some (history_of "ann" h')) = Some [].
Proof. split; vm_compute; reflexivity. Qed.

End ChatFacts.

(** ** The API client *)

Section ApiFacts.
Import Js Api.

Lemma receive_error (r : Response) (b : Browser) :
  status r ≠ 0 → validateStatus (status r) = false →
  receive r b = responseErrorInterceptor (error_of r) b.
Proof.
  intros H0 Hv. unfold receive. rewrite Hv.
  destruct (status r =? 0) eqn:E; [apply Z.eqb_eq in E; contradiction|].
  reflexivity.
Qed.

(** C8. The rejection handler always rejects with the error it was given.
    When the error carries a response of status 401 it first removes
    [token] and [user] from [localStorage] and sends the browser to
    [/login]; for any other error it touches neither. A response of status
    401 that arrives through the client reaches the handler and is logged
    out; a response of any other error status is rejected with
    [localStorage] and the location unchanged. *)
Theorem unauthorized_response_logs_out (b : Api.Browser) :
  (∀ error : Api.AxiosError,
     snd (Api.responseErrorInterceptor error b) = Rejected error
     ∧ (Api.is_unauthorized error = true →
        let b' := fst (Api.responseErrorInterceptor error b) in
        Api.localStorage b' = delete "user" (delete "token" (Api.localStorage b))
        ∧ Api.getItem "token" b' = None
        ∧ Api.getItem "user" b' = None
        ∧ (∀ key, key ≠ "token" → key ≠ "user" → Api.getItem key b' = Api.getItem key b)
        ∧ Api.location_href b' = "/login")
     ∧ (Api.is_unauthorized error = false →
        fst (Api.responseErrorInterceptor error b) = b))
  ∧ (∀ r : Api.Response,
       (Api.status r = 401 →
        ∃ error b',
          Api.receive r b = (b', Rejected error)
          ∧ Api.response error = Some r
          ∧ Api.getItem "token" b' = None
          ∧ Api.getItem "user" b' = None
          ∧ Api.location_href b' = "/login")
       ∧ (Api.status r ≠ 401 → Api.status r ≠ 0 →
          Api.validateStatus (Api.status r) = false →
          ∃ error,
            Api.receive r b = (b, Rejected error) ∧ Api.response error = Some r)).
Proof.
  split.
  - intros error. split; [reflexivity|]. split.
    + intros Hu. unfold responseErrorInterceptor. rewrite Hu. simpl.
      unfold getItem. simpl.
      split; [reflexivity|]. split.
      * rewrite lookup_delete_ne by discriminate. apply lookup_delete_eq.
      * split; [apply lookup_delete_eq|]. split; [|reflexivity].
        intros key Ht Hk.
        rewrite lookup_delete_ne by congruence.
        rewrite lookup_delete_ne by congruence. reflexivity.
    + intros Hu. unfold responseErrorInterceptor. rewrite Hu. reflexivity.
  - intros r. split.
    + intros H401.
      assert (Hun : is_unauthorized (error_of r) = true).
      { unfold is_unauthorized. simpl. rewrite H401. reflexivity. }
      exists (error_of r), (navigate "/login" (removeItem "user" (removeItem "token" b))).
      split.
      * rewrite receive_error; [|rewrite H401; discriminate|rewrite H401; reflexivity].
        unfold responseErrorInterceptor. rewrite Hun. reflexivity.
      * split; [reflexivity|]. unfold getItem. simpl. split.
        -- rewrite lookup_delete_ne by discriminate. apply lookup_delete_eq.
        -- split; [apply lookup_delete_eq|reflexivity].
    + intros Hne H0 Hv. exists (error_of r). split; [|reflexivity].
      rewrite receive_error by assumption.
      unfold responseErrorInterceptor, is_unauthorized. simpl.
      destruct (status r =? 401) eqn:E; [apply Z.eqb_eq in E; contradiction|].
      reflexivity.
Qed.

(** A session that receives a 401 and then a 500. *)
Example logout_on_401 :
  let b := {| localStorage := {["token" := "abc"; "user" := "{}"; "theme" := "dark"]};
              location_href := "/dashboard" |} in
  fst (receive {| status := 401; body := "" |} b)
    = {| localStorage := {["theme" := "dark"]}; location_href := "/login" |}
  ∧ fst (receive {| status := 500; body := "" |} b) = b
  ∧ receive {| status := 200; body := "ok" |} b
    = (b, Fulfilled {| status := 200; body := "ok" |}).
Proof.
  repeat split.
Qed.

Lemma truthy_string_nonempty (s : string) :
  truthy_string s = true ↔ s ≠ "".
Proof. destruct s; simpl; split; congruence. Qed.

(** C10, as stated, fails: with the empty string stored under [token]
    the interceptor adds no header. *)
Lemma empty_token_adds_no_header :
  ¬ (∀ (b : Api.Browser) (config : Api.RequestConfig) (t : string),
       Api.getItem "token" b = Some t →
       Api.headers (Api.requestInterceptor b config) !! "Authorization"
       = Some ("Bearer " ++ t)).
Proof.
  intros H.
  specialize (H {| localStorage := {["token" := ""]}; location_href := "/" |}
                {| url := "/expenses"; method := "get"; baseURL := "http://localhost:8000";
                   headers := {["Content-Type" := "application/json"]}; data := None |}
                "" eq_refl).
  vm_compute in H. discriminate H.
Qed.

(** C10, amended. With a non-empty token [t] in [localStorage] the
    interceptor returns the configuration with [Authorization] set to
    ["Bearer " ++ t]; with no token, or an empty one, it returns the
    configuration as it is. A configuration that had no [Authorization]
    header carries one exactly when a non-empty token is stored. In every
    case the url, method, base URL, body and all other headers are
    unchanged. *)
Theorem request_interceptor_authorization (b : Api.Browser)
    (config : Api.RequestConfig) :
  (∀ t, Api.getItem "token" b = Some t → t ≠ "" →
     Api.requestInterceptor b config = Api.with_authorization t config
     ∧ Api.headers (Api.requestInterceptor b config) !! "Authorization"
       = Some ("Bearer " ++ t))
  ∧ (Api.getItem "token" b = None ∨ Api.getItem "token" b = Some "" →
     Api.requestInterceptor b config = config)
  ∧ (Api.headers config !! "Authorization" = None →
     (is_Some (Api.headers (Api.requestInterceptor b config) !! "Authorization")
      ↔ ∃ t, Api.getItem "token" b = Some t ∧ t ≠ ""))
  ∧ Api.url (Api.requestInterceptor b config) = Api.url config
  ∧ Api.method (Api.requestInterceptor b config) = Api.method config
  ∧ Api.baseURL (Api.requestInterceptor b config) = Api.baseURL config
  ∧ Api.data (Api.requestInterceptor b config) = Api.data config
  ∧ (∀ h, h ≠ "Authorization" →
       Api.headers (Api.requestInterceptor b config) !! h = Api.headers config !! h).
Proof.
  unfold requestInterceptor.
  destruct (getItem "token" b) as [t|] eqn:Ht.
  - destruct (truthy_string t) eqn:Htr.
    + assert (Hne : t ≠ "") by (apply truthy_string_nonempty, Htr).
      split; [|split; [|split; [|repeat split]]].
      * intros t' [= <-] _. split; [reflexivity|]. simpl. apply lookup_insert_eq.
      * intros [Hn|[= Hs]]; [discriminate|]. contradiction.
      * intros _. simpl. rewrite lookup_insert_eq. split; eauto.
      * intros h Hh. simpl. apply lookup_insert_ne. congruence.
    + assert (He : t = "").
      { destruct t; [reflexivity|discriminate Htr]. }
      split; [|split; [|split; [|repeat split]]].
      * intros t' [= <-] Hn. contradiction.
      * reflexivity.
      * intros Hnone. rewrite Hnone. split.
        -- intros [x Hx]. discriminate.
        -- intros (t' & [= <-] & Hn). contradiction.
  - split; [|split; [|split; [|repeat split]]].
    + intros t [=].
    + reflexivity.
    + intros Hnone. rewrite Hnone. split.
      * intros [x Hx]. discriminate.
      * intros (t' & [=] & _).
Qed.

End ApiFacts.

(** ** Binary64 subtraction and order *)

Section FloatOrder.
Import Js.

Lemma digits2_pos_bounds (m : positive) :
  2 ^ (Z.pos (digits2_pos m) - 1) <= Z.pos m < 2 ^ Z.pos (digits2_pos m).
Proof.
  induction m as [m IH|m IH|]; simpl digits2_pos.
  - rewrite Pos2Z.inj_succ.
    replace (Z.succ (Z.pos (digits2_pos m)) - 1) with (Z.succ (Z.pos (digits2_pos m) - 1)) by lia.
    rewrite !Z.pow_succ_r by lia. lia.
  - rewrite Pos2Z.inj_succ.
    replace (Z.succ (Z.pos (digits2_pos m)) - 1) with (Z.succ (Z.pos (digits2_pos m) - 1)) by lia.
    rewrite !Z.pow_succ_r by lia. lia.
  - simpl. lia.
Qed.

Lemma shr_1_lower (r : shr_record) (j : Z) :
  0 <= j -> 2 ^ (j + 1) <= shr_m r -> 2 ^ j <= shr_m (shr_1 r).
Proof.
  intros Hj. rewrite Z.pow_add_r by lia. change (2 ^ 1) with 2.
  pose proof (Z.pow_pos_nonneg 2 j ltac:(lia) Hj) as Hpos.
  destruct r as [[|[p|p|]|p] rb sb]; simpl; lia.
Qed.

Lemma iter_shr_1_lower (p : positive) :
  forall (r : shr_record) (j : Z),
    0 <= j -> 2 ^ (j + Z.pos p) <= shr_m r -> 2 ^ j <= shr_m (SpecFloat.iter_pos shr_1 p r).
Proof.
  induction p as [p IH|p IH|]; intros r j Hj H; simpl.
  - apply IH; [exact Hj|]. apply IH; [lia|].
    apply shr_1_lower; [lia|].
    replace (j + Z.pos p + Z.pos p + 1) with (j + Z.pos p~1) by lia. exact H.
  - apply IH; [exact Hj|]. apply IH; [lia|].
    replace (j + Z.pos p + Z.pos p) with (j + Z.pos p~0) by lia. exact H.
  - apply shr_1_lower; assumption.
Qed.

Lemma fexp_cases (z : Z) : fexp prec emax z = Z.max (z - 53) (-1074).
Proof. reflexivity. Qed.

(** Shifting a positive mantissa to its format keeps it positive. *)
Lemma shr_fexp_positive (m : positive) (e : Z) (l : location) :
  -1074 <= e ->
  0 < shr_m (fst (shr_fexp prec emax (Z.pos m) e l)) /\
  -1074 <= snd (shr_fexp prec emax (Z.pos m) e l).
Proof.
  intros He. unfold shr_fexp. rewrite fexp_cases. simpl Zdigits2.
  pose proof (digits2_pos_bounds m) as [Hlo _].
  set (d := Z.pos (digits2_pos m)) in *.
  assert (Hrec : shr_m (shr_record_of_loc (Z.pos m) l) = Z.pos m).
  { destruct l as [|[| |]]; reflexivity. }
  destruct (Z.max (d + e - 53) (-1074) - e) as [|p|p] eqn:Hn; simpl.
  - rewrite Hrec. lia.
  - split; [|lia].
    assert (H1 : 2 ^ 0 <= shr_m (SpecFloat.iter_pos shr_1 p (shr_record_of_loc (Z.pos m) l))).
    { apply iter_shr_1_lower; [lia|]. rewrite Hrec.
      eapply Z.le_trans; [|exact Hlo].
      apply Z.pow_le_mono_r; lia. }
    simpl in H1. lia.
  - rewrite Hrec. lia.
Qed.

Lemma binary_round_aux_sign (s : bool) (m : positive) (e : Z) (l : location) :
  -1074 <= e ->
  (exists m' e', binary_round_aux prec emax s (Z.pos m) e l = S754_finite s m' e')
  \/ binary_round_aux prec emax s (Z.pos m) e l = S754_infinity s.
Proof.
  intros He. unfold binary_round_aux.
  pose proof (shr_fexp_positive m e l He) as [Hm1 He1].
  destruct (shr_fexp prec emax (Z.pos m) e l) as [mrs' e'] eqn:E1. simpl in Hm1, He1.
  set (m1 := round_nearest_even (shr_m mrs') (loc_of_shr_record mrs')).
  assert (Hm1' : 0 < m1).
  { unfold m1, round_nearest_even.
    destruct (loc_of_shr_record mrs') as [|[| |]]; try lia.
    destruct (Z.even (shr_m mrs')); lia. }
  destruct m1 as [|q|q] eqn:Eq1; try lia.
  pose proof (shr_fexp_positive q e' loc_Exact He1) as [Hm2 _].
  destruct (shr_fexp prec emax (Z.pos q) e' loc_Exact) as [mrs'' e''] eqn:E2.
  simpl in Hm2.
  destruct (shr_m mrs'') as [|q2|q2]; try lia.
  destruct (e'' <=? emax - prec); eauto.
Qed.

Lemma binary_round_sign (s : bool) (m : positive) (e : Z) :
  -1074 <= e ->
  (exists m' e', binary_round prec emax s m e = S754_finite s m' e')
  \/ binary_round prec emax s m e = S754_infinity s.
Proof.
  intros He. unfold binary_round.
  destruct (shl_align m e (fexp prec emax (Z.pos (digits2_pos m) + e))) as [mz ez] eqn:E.
  apply binary_round_aux_sign.
  unfold shl_align in E. rewrite fexp_cases in E.
  destruct (Z.max (Z.pos (digits2_pos m) + e - 53) (-1074) - e) eqn:Hd;
    injection E as <- <-; lia.
Qed.

Lemma shl_align_value (m : positive) (e e' : Z) :
  e' <= e -> Z.pos (fst (shl_align m e e')) = Z.pos m * 2 ^ (e - e').
Proof.
  intros Hle. unfold shl_align.
  destruct (e' - e) as [|d|d] eqn:Hd; simpl fst.
  - replace (e - e') with 0 by lia. lia.
  - lia.
  - replace (e - e') with (Z.pos d) by lia.
    change (Pos.iter xO m d) with (shift_pos d m).
    rewrite shift_pos_correct, Zpower_pos_nat, Zpower_nat_Z, positive_nat_Z. lia.
Qed.

Lemma bounded_canonical (m : positive) (e : Z) :
  bounded prec emax m e = true ->
  -1074 <= e /\ Z.pos (digits2_pos m) <= 53
  /\ (-1074 < e -> Z.pos (digits2_pos m) = 53).
Proof.
  unfold bounded, canonical_mantissa. rewrite fexp_cases.
  intros [Hc _]%andb_prop. apply Z.eqb_eq in Hc. lia.
Qed.

(** Of two valid positive floats the one with the smaller exponent is the
    smaller one. *)
Lemma lower_exponent_smaller (m1 m2 : positive) (e1 e2 : Z) :
  bounded prec emax m1 e1 = true -> bounded prec emax m2 e2 = true ->
  e1 < e2 -> Z.pos m1 < Z.pos m2 * 2 ^ (e2 - e1).
Proof.
  intros (Hm1 & Hd1 & _)%bounded_canonical (Hm2 & _ & Hd2)%bounded_canonical Hlt.
  specialize (Hd2 ltac:(lia)).
  pose proof (digits2_pos_bounds m1) as [_ Hu1].
  pose proof (digits2_pos_bounds m2) as [Hl2 _].
  rewrite Hd2 in Hl2.
  assert (H53 : Z.pos m1 < 2 ^ 53).
  { eapply Z.lt_le_trans; [exact Hu1|]. apply Z.pow_le_mono_r; lia. }
  assert (H2 : 2 ^ 1 <= 2 ^ (e2 - e1)) by (apply Z.pow_le_mono_r; lia).
  change (2 ^ 1) with 2 in H2. change (2 ^ (53 - 1)) with 4503599627370496 in Hl2.
  change (2 ^ 53) with 9007199254740992 in H53. nia.
Qed.

Lemma binary_normalize_negative (d e : Z) :
  -1074 <= e ->
  SFnegative (binary_normalize prec emax d e false) = (d <? 0).
Proof.
  intros He. destruct d as [|p|p]; simpl binary_normalize.
  - reflexivity.
  - destruct (binary_round_sign false p e He) as [(m' & e' & ->)| ->]; reflexivity.
  - destruct (binary_round_sign true p e He) as [(m' & e' & ->)| ->]; reflexivity.
Qed.

Lemma SFltb_finite (sx sy : bool) (mx my : positive) (ex ey : Z) :
  bounded prec emax mx ex = true -> bounded prec emax my ey = true ->
  SFltb (S754_finite sx mx ex) (S754_finite sy my ey)
  = (cond_Zopp sx (Z.pos (fst (shl_align mx ex (Z.min ex ey))))
     - cond_Zopp sy (Z.pos (fst (shl_align my ey (Z.min ex ey)))) <? 0).
Proof.
  intros Hx Hy.
  rewrite !shl_align_value by lia.
  unfold SFltb, SFcompare.
  assert (Hpx : 0 < 2 ^ (ex - Z.min ex ey)) by (apply Z.pow_pos_nonneg; lia).
  assert (Hpy : 0 < 2 ^ (ey - Z.min ex ey)) by (apply Z.pow_pos_nonneg; lia).
  destruct (Z.compare_spec ex ey) as [Heq|Hlt|Hgt].
  - subst ey. rewrite Z.min_id, Z.sub_diag in *. simpl (2 ^ 0). rewrite !Z.mul_1_r.
    rewrite Pos.compare_cont_spec. simpl Pos.switch_Eq.
    change (mx ?= my)%positive with (Z.pos mx ?= Z.pos my).
    destruct sx, sy; cbn [cond_Zopp];
      destruct (Z.compare_spec (Z.pos mx) (Z.pos my)); cbn [CompOpp];
      symmetry; first [apply Z.ltb_lt; lia | apply Z.ltb_ge; lia].
  - rewrite (Z.min_l ex ey) in * by lia. rewrite Z.sub_diag. simpl (2 ^ 0). rewrite Z.mul_1_r.
    pose proof (lower_exponent_smaller mx my ex ey Hx Hy Hlt).
    destruct sx, sy; cbn [cond_Zopp];
      symmetry; first [apply Z.ltb_lt; lia | apply Z.ltb_ge; lia].
  - rewrite (Z.min_r ex ey) in * by lia. rewrite Z.sub_diag. simpl (2 ^ 0). rewrite Z.mul_1_r.
    pose proof (lower_exponent_smaller my mx ey ex Hy Hx ltac:(lia)).
    destruct sx, sy; cbn [cond_Zopp];
      symmetry; first [apply Z.ltb_lt; lia | apply Z.ltb_ge; lia].
Qed.

(** The difference of two floats is negative exactly when the first is
    smaller. *)
Lemma SFsub_negative (x y : spec_float) :
  valid_binary x = true -> valid_binary y = true ->
  SFnegative (SF64sub x y) = SFltb x y.
Proof.
  intros Hx Hy.
  destruct x as [sx|sx| |sx mx ex], y as [sy|sy| |sy my ey];
    try (destruct sx; try destruct sy; reflexivity);
    try (destruct sy; reflexivity); try reflexivity.
  simpl in Hx, Hy. unfold SF64sub, SFsub.
  rewrite binary_normalize_negative.
  - symmetry. apply SFltb_finite; assumption.
  - apply bounded_canonical in Hx as [? _]. apply bounded_canonical in Hy as [? _]. lia.
Qed.

Theorem sub_ltb_zero (x y : float) :
  (x - y <? 0)%float = (x <? y)%float.
Proof.
  rewrite !ltb_spec, sub_spec.
  apply (SFsub_negative (Prim2SF x) (Prim2SF y)); apply Prim2SF_valid.
Qed.

End FloatOrder.


(** ** JavaScript numbers *)

Section NumberFacts.
Import Js.
Local Open Scope float_scope.

(** A float compares equal to [0] exactly when it is [+0] or [-0]. *)
Lemma is_zero_spec (x : float) :
  PrimFloat.is_zero x = true ↔ ∃ s, Prim2SF x = S754_zero s.
Proof.
  unfold PrimFloat.is_zero. rewrite FloatAxioms.eqb_spec.
  replace (Prim2SF PrimFloat.zero) with (S754_zero false) by reflexivity.
  split.
  - destruct (Prim2SF x) as [s|[|]| |[|] m e]; simpl; try discriminate. eauto.
  - intros [s ->]. reflexivity.
Qed.

Lemma zero_cases (x : float) :
  PrimFloat.is_zero x = true → x = 0 ∨ x = -0.
Proof.
  intros [s Hs]%is_zero_spec. rewrite <- (SF2Prim_Prim2SF x), Hs.
  destruct s; [right|left]; reflexivity.
Qed.

Lemma is_nan_spec (x : float) :
  PrimFloat.is_nan x = true ↔ Prim2SF x = S754_nan.
Proof.
  unfold PrimFloat.is_nan. rewrite FloatAxioms.eqb_spec.
  destruct (Prim2SF x) as [s|[|]| |[|] m e] eqn:E; simpl;
    try (split; [discriminate|discriminate]); try (split; reflexivity).
  - unfold SFeqb, SFcompare. rewrite Z.compare_refl, Pos.compare_cont_refl.
    simpl. split; discriminate.
  - unfold SFeqb, SFcompare. rewrite Z.compare_refl, Pos.compare_cont_refl.
    simpl. split; discriminate.
Qed.

(** Dividing by a zero never gives a finite number. *)
Lemma div_zero_not_finite (v z : float) :
  PrimFloat.is_zero z = true →
  Prim2SF (v / z) = S754_nan ∨ ∃ s, Prim2SF (v / z) = S754_infinity s.
Proof.
  intros [sz Hz]%is_zero_spec. rewrite FloatAxioms.div_spec, Hz. unfold SF64div.
  destruct (Prim2SF v) as [s|s| |s m e]; simpl; eauto.
Qed.

(** Scaling [NaN] or an infinity by 100 changes neither. *)
Lemma times_100_not_finite (x : float) :
  Prim2SF x = S754_nan ∨ (∃ s, Prim2SF x = S754_infinity s) →
  Prim2SF (x * 100) = S754_nan ∨ ∃ s, Prim2SF (x * 100) = S754_infinity s.
Proof.
  intros H. rewrite FloatAxioms.mul_spec.
  replace (Prim2SF 100) with (S754_finite false 7036874417766400 (-46)) by reflexivity.
  destruct H as [->|[s ->]]; simpl; eauto.
Qed.

Lemma toFixed_not_finite (x : float) (f : nat) :
  Prim2SF x = S754_nan ∨ (∃ s, Prim2SF x = S754_infinity s) →
  toFixed x f = Text "NaN" ∨ toFixed x f = Text "Infinity"
  ∨ toFixed x f = Text "-Infinity".
Proof.
  unfold toFixed. intros [->|[s ->]]; [left; reflexivity|].
  destruct s; [right; right|right; left]; reflexivity.
Qed.

Lemma toFixed_zero_over_30 (x : float) :
  PrimFloat.is_zero x = true → toFixed (x / 30) 2 = Text "0.00".
Proof.
  intros [->| ->]%zero_cases; vm_compute; reflexivity.
Qed.

Lemma slice_prefix {A : Type} (l : list A) (n : nat) :
  slice l 0 (Z.of_nat n) = take n l.
Proof.
  unfold slice. simpl.
  replace (Z.of_nat n <? 0)%Z with false by (symmetry; apply Z.ltb_ge; lia).
  rewrite (Z.min_l 0) by lia. simpl. rewrite drop_0, Z.sub_0_r.
  destruct (Z.min_spec (Z.of_nat n) (Z.of_nat (length l))) as [[Hlt ->]|[Hle ->]].
  - rewrite Nat2Z.id. reflexivity.
  - rewrite Nat2Z.id. rewrite take_ge by lia. rewrite take_ge by lia. reflexivity.
Qed.

End NumberFacts.

(** ** The dashboard *)

Section DashboardFacts.
Import Js Dashboard.
Local Open Scope float_scope.

(** When either request fails the page keeps what it showed and only
    stops loading. *)
Lemma fetch_failure_keeps_state (E : Type) (reason : E)
    (expensesResult : Settled (list Expense) E) (st : State) :
  fetchDashboardData (Rejected reason) expensesResult st
  = {| summary := summary st; recentExpenses := recentExpenses st; loading := false |}.
Proof. reflexivity. Qed.

(** C6. Once both requests have succeeded, the recent expenses are the
    first five records of the fetched list, in the order they arrived:
    all of them when fewer than five were returned, never more than five,
    each record as it was fetched. *)
Theorem recent_expenses_truncation (summaryData : Dashboard.SpendingSummary)
    (expensesData : list Dashboard.Expense) (st : Dashboard.State) :
  let st' := Dashboard.fetchDashboardData (E := Api.AxiosError)
               (Fulfilled summaryData) (Fulfilled expensesData) st in
  Dashboard.recentExpenses st' = take 5 expensesData
  ∧ length (Dashboard.recentExpenses st') = Nat.min 5 (length expensesData)
  ∧ (length (Dashboard.recentExpenses st') ≤ 5)%nat
  ∧ (∀ i, (i < 5)%nat → Dashboard.recentExpenses st' !! i = expensesData !! i)
  ∧ (∀ i, (5 ≤ i)%nat → Dashboard.recentExpenses st' !! i = None)
  ∧ Dashboard.recentExpenses st' `prefix_of` expensesData.
Proof.
  unfold fetchDashboardData. cbn [recentExpenses].
  replace (slice expensesData 0 5) with (take 5 expensesData)
    by (symmetry; exact (slice_prefix expensesData 5)).
  split; [reflexivity|]. split; [apply length_take|].
  split; [rewrite length_take; lia|].
  split; [intros i Hi; apply lookup_take_lt, Hi|].
  split; [intros i Hi; apply lookup_take_ge, Hi|].
  apply prefix_take.
Qed.

Lemma categoryData_lookup (s : SpendingSummary) (i : nat) (n : string) (v : float) :
  categories s !! i = Some (n, v) →
  categoryData (Some s) !! i
  = Some {| name := n; value := v;
            percentage := toFixed ((v / total_spent s) * 100) 1 |}.
Proof.
  intros H. unfold categoryData.
  change (map ?f ?l) with (f <$> l).
  rewrite list_lookup_fmap, H. reflexivity.
Qed.

Lemma percentage_not_finite (v total : float) :
  PrimFloat.is_zero total = true →
  toFixed ((v / total) * 100) 1 = Text "NaN"
  ∨ toFixed ((v / total) * 100) 1 = Text "Infinity"
  ∨ toFixed ((v / total) * 100) 1 = Text "-Infinity".
Proof.
  intros Hz. apply toFixed_not_finite, times_100_not_finite, div_zero_not_finite, Hz.
Qed.

(** C2. On a summary whose total is 0 the percentage is not 0: the
    division is not guarded, so a category of amount 0 gets ["NaN"] and a
    category of positive amount ["Infinity"], on the dashboard and on the
    demo dashboard alike; for every summary with a zero total, every
    category's percentage is ["NaN"], ["Infinity"] or ["-Infinity"]. For
    any total the entry of a category is its name, its amount and
    [amount / total_spent * 100] to one decimal. *)
Theorem percentage_on_zero_total :
  map Dashboard.percentage (Dashboard.categoryData (Some Dashboard.zero_total_summary))
    = [Text "NaN"; Text "Infinity"]
  ∧ map Dashboard.percentage (DashboardMock.categoryData Dashboard.zero_total_summary)
    = [Text "NaN"; Text "Infinity"]
  ∧ (∀ s : Dashboard.SpendingSummary,
       PrimFloat.is_zero (Dashboard.total_spent s) = true →
       Forall (λ d, Dashboard.percentage d = Text "NaN"
                    ∨ Dashboard.percentage d = Text "Infinity"
                    ∨ Dashboard.percentage d = Text "-Infinity")
              (Dashboard.categoryData (Some s)))
  ∧ (∀ s : Dashboard.SpendingSummary,
       Dashboard.categoryData (Some s) = DashboardMock.categoryData s
       ∧ Dashboard.categoryData (Some s)
         = map (λ entry,
                  {| Dashboard.name := fst entry;
                     Dashboard.value := snd entry;
                     Dashboard.percentage :=
                       toFixed ((snd entry / Dashboard.total_spent s) * 100) 1 |})
               (Dashboard.categories s)).
Proof.
  split; [vm_compute; reflexivity|]. split; [vm_compute; reflexivity|]. split.
  - intros s Hz. unfold categoryData. apply Forall_forall. intros d Hd.
    apply list_elem_of_fmap in Hd as ([n v] & -> & _). simpl.
    apply percentage_not_finite, Hz.
  - intros s. split; [reflexivity|]. unfold categoryData.
    apply map_ext. intros [n v]. reflexivity.
Qed.

(** The demo summary: every percentage is a finite figure. *)
Example mock_percentages :
  map percentage (DashboardMock.categoryData DashboardMock.mockSummary)
  = [Text "35.8"; Text "18.7"; Text "14.2"; Text "12.4"; Text "18.8"].
Proof. vm_compute. reflexivity. Qed.

Lemma truthy_number_spec (x : float) :
  truthy_number x = true ↔ PrimFloat.is_zero x = false ∧ PrimFloat.is_nan x = false.
Proof.
  unfold truthy_number.
  destruct (PrimFloat.is_zero x), (PrimFloat.is_nan x); simpl; split;
    try tauto; try discriminate; intros [? ?]; discriminate.
Qed.

(** C3, as stated, fails: this user's budget is 0, not null, and 5 has
    been spent, so the tracker of the specification reports the user over
    budget; the dashboard shows ['No budget set'], 0.0% used and nothing
    remaining, and so does the demo dashboard. *)
Lemma zero_budget_shows_no_budget :
  Dashboard.budget Dashboard.zero_budget_user = Some 0
  ∧ (0 <? Dashboard.total_spent Dashboard.five_spent_summary) = true
  ∧ Ledger.isOverBudget {| Ledger.budget := Some 0%Q; Ledger.total_spent := 5%Q |} = true
  ∧ Dashboard.budgetStatus (Some Dashboard.five_spent_summary)
                           (Some Dashboard.zero_budget_user)
    = {| Dashboard.used := Text "0.0"; Dashboard.caption := Dashboard.NoBudgetSet |}
  ∧ Dashboard.budgetRemaining (Some Dashboard.five_spent_summary)
                              (Some Dashboard.zero_budget_user) = 0
  ∧ Dashboard.budgetUsed (Some Dashboard.five_spent_summary)
                         (Some Dashboard.zero_budget_user) = 0
  ∧ DashboardMock.budgetStatus Dashboard.five_spent_summary
                               (Some Dashboard.zero_budget_user)
    = {| Dashboard.used := Text "0.0"; Dashboard.caption := Dashboard.NoBudgetSet |}.
Proof. repeat split. Qed.

Lemma ltb_zero_right (b t : float) :
  PrimFloat.is_zero t = true → (b <? t) = (b <? 0).
Proof.
  intros [s Hs]%is_zero_spec. rewrite !ltb_spec, Hs.
  replace (Prim2SF 0) with (S754_zero false) by reflexivity.
  destruct (Prim2SF b) as [sb|sb| |sb mb eb]; reflexivity.
Qed.

Lemma spent_or_zero_ltb (s : SpendingSummary) (b : float) :
  PrimFloat.is_nan (total_spent s) = false →
  (b <? spent_or_zero (Some s)) = (b <? total_spent s).
Proof.
  intros Hn. unfold spent_or_zero, truthy_number. rewrite Hn, orb_false_r.
  destruct (PrimFloat.is_zero (total_spent s)) eqn:Hz; simpl; [|reflexivity].
  symmetry. apply ltb_zero_right, Hz.
Qed.

Lemma budget_status_cases (summary : option SpendingSummary) (user : option User) :
  (caption (budgetStatus summary user) ≠ NoBudgetSet
   ↔ ∃ b, user_budget user = Some b
          ∧ PrimFloat.is_zero b = false ∧ PrimFloat.is_nan b = false)
  ∧ (∀ b, user_budget user = Some b → truthy_number b = true →
       budgetRemaining summary user = b - spent_or_zero summary
       ∧ caption (budgetStatus summary user)
         = Remaining (toFixed (b - spent_or_zero summary) 2)
       ∧ ∀ s, summary = Some s →
              budgetUsed summary user = (total_spent s / b) * 100
              ∧ (truthy_number (total_spent s) = true →
                 budgetRemaining summary user = b - total_spent s))
  ∧ (truthy_opt_number (user_budget user) = false →
     budgetStatus summary user
     = {| used := Text "0.0"; caption := NoBudgetSet |}
     ∧ budgetRemaining summary user = 0
     ∧ budgetUsed summary user = 0)
  ∧ (∀ s, DashboardMock.budgetUsed s user = budgetUsed (Some s) user
          ∧ (truthy_number (total_spent s) = true →
             DashboardMock.budgetStatus s user = budgetStatus (Some s) user)).
Proof.
  unfold budgetStatus, DashboardMock.budgetStatus, budgetRemaining, budgetUsed,
    DashboardMock.budgetRemaining, DashboardMock.budgetUsed, truthy_opt_number.
  destruct (user_budget user) as [b|] eqn:Hb; simpl.
  - destruct (truthy_number b) eqn:Ht; simpl.
    + pose proof (proj1 (truthy_number_spec b) Ht) as [Hz Hn].
      split; [split; [intros _; exists b; auto|discriminate]|].
      split.
      * intros b' [= <-] _. split; [reflexivity|]. split; [reflexivity|].
        intros s ->. split; [reflexivity|]. simpl. intros ->. reflexivity.
      * split; [discriminate|]. intros s. split; [reflexivity|].
        intros Hs. simpl. rewrite Hs. reflexivity.
    + split.
      * split; [congruence|]. intros (b' & [= <-] & Hz & Hn).
        rewrite (proj2 (truthy_number_spec b) (conj Hz Hn)) in Ht. discriminate.
      * split; [intros b' [= <-] Hc; congruence|].
        split; [|intros s; split; reflexivity].
        intros _. destruct summary; repeat split.
  - split; [split; [congruence|intros (b & [=] & _)]|].
    split; [intros b [=]|]. split; [|intros s; split; reflexivity].
    intros _. destruct summary; repeat split.
Qed.

(** The remaining amount is negative exactly when a budget is set, is not
    0 and is below what was spent. *)
Lemma remaining_negative (s : SpendingSummary) (user : option User) :
  PrimFloat.is_nan (total_spent s) = false →
  (budgetRemaining (Some s) user <? 0) = true
  ↔ ∃ b, user_budget user = Some b
         ∧ PrimFloat.is_zero b = false ∧ PrimFloat.is_nan b = false
         ∧ (b <? total_spent s) = true.
Proof.
  intros Hn. unfold budgetRemaining.
  destruct (user_budget user) as [b|].
  - destruct (truthy_number b) eqn:Ht.
    + apply truthy_number_spec in Ht as [Hz Hb].
      rewrite sub_ltb_zero, (spent_or_zero_ltb s b Hn). split.
      * intros H. exists b. auto.
      * intros (b' & [= <-] & _ & _ & H). exact H.
    + split; [intros H; vm_compute in H; discriminate|].
      intros (b' & [= <-] & Hz & Hb & _).
      rewrite (proj2 (truthy_number_spec b) (conj Hz Hb)) in Ht. discriminate.
  - split; [intros H; vm_compute in H; discriminate|].
    intros (b' & [=] & _).
Qed.

Lemma mock_remaining_negative (s : SpendingSummary) (user : option User) :
  (DashboardMock.budgetRemaining s user <? 0) = true
  ↔ ∃ b, user_budget user = Some b
         ∧ PrimFloat.is_zero b = false ∧ PrimFloat.is_nan b = false
         ∧ (b <? total_spent s) = true.
Proof.
  unfold DashboardMock.budgetRemaining.
  destruct (user_budget user) as [b|].
  - destruct (truthy_number b) eqn:Ht.
    + apply truthy_number_spec in Ht as [Hz Hb].
      rewrite sub_ltb_zero. split.
      * intros H. exists b. auto.
      * intros (b' & [= <-] & _ & _ & H). exact H.
    + split; [intros H; vm_compute in H; discriminate|].
      intros (b' & [= <-] & Hz & Hb & _).
      rewrite (proj2 (truthy_number_spec b) (conj Hz Hb)) in Ht. discriminate.
  - split; [intros H; vm_compute in H; discriminate|].
    intros (b' & [=] & _).
Qed.

(** C3, amended. The budget status treats a user as having a budget
    exactly when [user.budget] is set and is neither 0 nor NaN. It then
    reports [total_spent / budget * 100] as used and
    [budget - total_spent] as remaining, and the remaining amount is
    negative, the user being over budget, exactly when
    [total_spent > budget]; otherwise (no user, no budget, a budget of 0) it
    reports 0 used, 0 remaining and ['No budget set']. The status is a
    function of the summary and the user alone, and the demo dashboard
    computes the same status from a summary that is present. *)
Theorem budget_status_determination (summary : option Dashboard.SpendingSummary)
    (user : option Dashboard.User) :
  (Dashboard.caption (Dashboard.budgetStatus summary user) ≠ Dashboard.NoBudgetSet
   ↔ ∃ b, Dashboard.user_budget user = Some b
          ∧ PrimFloat.is_zero b = false ∧ PrimFloat.is_nan b = false)
  ∧ (∀ b, Dashboard.user_budget user = Some b → truthy_number b = true →
       Dashboard.budgetRemaining summary user = b - Dashboard.spent_or_zero summary
       ∧ Dashboard.caption (Dashboard.budgetStatus summary user)
         = Dashboard.Remaining (toFixed (b - Dashboard.spent_or_zero summary) 2)
       ∧ ∀ s, summary = Some s →
              Dashboard.budgetUsed summary user = (Dashboard.total_spent s / b) * 100
              ∧ (truthy_number (Dashboard.total_spent s) = true →
                 Dashboard.budgetRemaining summary user = b - Dashboard.total_spent s))
  ∧ (truthy_opt_number (Dashboard.user_budget user) = false →
     Dashboard.budgetStatus summary user
     = {| Dashboard.used := Text "0.0"; Dashboard.caption := Dashboard.NoBudgetSet |}
     ∧ Dashboard.budgetRemaining summary user = 0
     ∧ Dashboard.budgetUsed summary user = 0)
  ∧ (∀ s, DashboardMock.budgetUsed s user = Dashboard.budgetUsed (Some s) user
          ∧ (truthy_number (Dashboard.total_spent s) = true →
             DashboardMock.budgetStatus s user = Dashboard.budgetStatus (Some s) user))
  ∧ (∀ s, PrimFloat.is_nan (Dashboard.total_spent s) = false →
          ((Dashboard.budgetRemaining (Some s) user <? 0) = true
           ↔ ∃ b, Dashboard.user_budget user = Some b
                  ∧ PrimFloat.is_zero b = false ∧ PrimFloat.is_nan b = false
                  ∧ (b <? Dashboard.total_spent s) = true))
  ∧ (∀ s, (DashboardMock.budgetRemaining s user <? 0) = true
          ↔ ∃ b, Dashboard.user_budget user = Some b
                 ∧ PrimFloat.is_zero b = false ∧ PrimFloat.is_nan b = false
                 ∧ (b <? Dashboard.total_spent s) = true).
Proof.
  pose proof (budget_status_cases summary user) as (H1 & H2 & H3 & H4).
  split; [exact H1|]. split; [exact H2|]. split; [exact H3|]. split; [exact H4|].
  split.
  - intros s Hn. apply remaining_negative, Hn.
  - intros s. apply mock_remaining_negative.
Qed.

(** The demo user has spent 62.8% of a budget of 2000. *)
Example mock_budget_status :
  DashboardMock.budgetStatus DashboardMock.mockSummary (Some DashboardMock.mockUser)
  = {| used := Text "62.8"; caption := Remaining (Text "743.22") |}.
Proof. vm_compute. reflexivity. Qed.

(** C9. The card shows [total_spent / 30] to two decimals whenever
    [total_spent] is a number other than 0, and ["0.00"] when it is 0 or
    the summary is absent; nothing but the summary enters the figure. The
    demo dashboard shows [total_spent / 30] to two decimals for every
    total, which is ["0.00"] for a total of 0. *)
Theorem avg_per_day (s : Dashboard.SpendingSummary) :
  (PrimFloat.is_zero (Dashboard.total_spent s) = false →
   PrimFloat.is_nan (Dashboard.total_spent s) = false →
   Dashboard.avgPerDay (Some s) = toFixed (Dashboard.total_spent s / 30) 2)
  ∧ (PrimFloat.is_zero (Dashboard.total_spent s) = true →
     Dashboard.avgPerDay (Some s) = Text "0.00")
  ∧ Dashboard.avgPerDay None = Text "0.00"
  ∧ DashboardMock.avgPerDay s = toFixed (Dashboard.total_spent s / 30) 2
  ∧ (PrimFloat.is_zero (Dashboard.total_spent s) = true →
     DashboardMock.avgPerDay s = Text "0.00").
Proof.
  unfold avgPerDay, DashboardMock.avgPerDay.
  split.
  - intros Hz Hn. rewrite (proj2 (truthy_number_spec _) (conj Hz Hn)). reflexivity.
  - split.
    + intros Hz. unfold truthy_number. rewrite Hz. reflexivity.
    + split; [reflexivity|]. split; [reflexivity|].
      apply toFixed_zero_over_30.
Qed.

(** The demo summary: 1256.78 over 30 days. *)
Example mock_avg_per_day :
  DashboardMock.avgPerDay DashboardMock.mockSummary = Text "41.89"
  ∧ avgPerDay (Some DashboardMock.mockSummary) = Text "41.89".
Proof. split; vm_compute; reflexivity. Qed.

End DashboardFacts.

(** ** Instances *)

Section Instances.
Import Js.
Local Open Scope float_scope.

(** A user who registers in a store that already has a user starts with
    nothing spent. *)
Lemma total_spent_invariant_witness :
  ∃ st', Ledger.registerUser "eve" None
           (Ledger.commit Ledger.empty_store (Ledger.Register "ann" None))
         = Ledger.Ok st'
         ∧ Ledger.total_spent_of "eve" st' = 0%Q
         ∧ Ledger.listExpenses "eve" (length (Ledger.expenses st')) 0 st' = [].
Proof.
  pose proof (proj2 (total_spent_invariant [Ledger.Register "ann" None])) as H.
  simpl in H. apply Forall_cons in H as [_ H]. apply Forall_cons in H as [H _].
  exact (H "eve" None eq_refl).
Defined.

(** The March entry closes a six-month trend requested in March 2024. *)
Lemma monthly_trend_complete_witness :
  last (map fst (Aggregation.monthlyTrend Ledger.sample_time 6 []))
  = Some (2024%Z, 3%Z).
Proof.
  apply (proj1 (proj2 (proj2 (proj2 (proj2
           (monthly_trend_complete Ledger.sample_time 5 [])))))).
  simpl. lia.
Defined.

(** A 401 answer to a logged-in session. *)
Lemma unauthorized_response_logs_out_witness :
  let b := {| Api.localStorage := {["token" := "abc"; "user" := "{}"]};
              Api.location_href := "/dashboard" |} in
  ∃ error b',
    Api.receive {| Api.status := 401; Api.body := "" |} b = (b', Rejected error)
    ∧ Api.response error = Some {| Api.status := 401; Api.body := "" |}
    ∧ Api.getItem "token" b' = None
    ∧ Api.getItem "user" b' = None
    ∧ Api.location_href b' = "/login".
Proof.
  intros b.
  exact (proj1 (proj2 (unauthorized_response_logs_out b)
                  {| Api.status := 401; Api.body := "" |}) eq_refl).
Defined.

(** A request sent while the token [abc] is stored. *)
Lemma request_interceptor_authorization_witness :
  let b := {| Api.localStorage := {["token" := "abc"]}; Api.location_href := "/" |} in
  let config := {| Api.url := "/expenses"; Api.method := "get";
                   Api.baseURL := "http://localhost:8000";
                   Api.headers := {["Content-Type" := "application/json"]};
                   Api.data := None |} in
  Api.requestInterceptor b config = Api.with_authorization "abc" config
  ∧ Api.headers (Api.requestInterceptor b config) !! "Authorization"
    = Some "Bearer abc".
Proof.
  intros b config.
  apply (proj1 (request_interceptor_authorization b config) "abc" eq_refl).
  discriminate.
Defined.

(** The demo user, whose budget is 2000. *)
Lemma budget_status_determination_witness :
  Dashboard.budgetRemaining (Some DashboardMock.mockSummary) (Some DashboardMock.mockUser)
  = 2000 - Dashboard.spent_or_zero (Some DashboardMock.mockSummary).
Proof.
  exact (proj1 (proj1 (proj2 (budget_status_determination
                  (Some DashboardMock.mockSummary) (Some DashboardMock.mockUser)))
                2000 eq_refl eq_refl)).
Defined.

(** The demo summary, whose total is 1256.78. *)
Lemma avg_per_day_witness :
  Dashboard.avgPerDay (Some DashboardMock.mockSummary) = toFixed (1256.78 / 30) 2.
Proof.
  exact (proj1 (avg_per_day DashboardMock.mockSummary) eq_refl eq_refl).
Defined.

End Instances.

(** * Further properties of the front end *)

(** ** The interceptors as a pair *)

Section InterceptorFacts.
Import Js Api ApiSession.

Lemma request_interceptor_cases (b : Browser) (config : RequestConfig) :
  (∃ t, getItem "token" b = Some t ∧ t ≠ ""
        ∧ requestInterceptor b config = with_authorization t config)
  ∨ ((getItem "token" b = None ∨ getItem "token" b = Some "")
     ∧ requestInterceptor b config = config).
Proof.
  unfold requestInterceptor.
  destruct (getItem "token" b) as [t|] eqn:Ht; [|right; auto].
  destruct t as [|c t']; simpl.
  - right. auto.
  - left. exists (String c t'). repeat split. discriminate.
Qed.

Lemma no_token_no_change (b : Browser) (config : RequestConfig) :
  getItem "token" b = None → requestInterceptor b config = config.
Proof. intros H. unfold requestInterceptor. rewrite H. reflexivity. Qed.


(** X1. Running the request interceptor on its own result changes
    nothing, and with a non-empty token stored the request that leaves
    does not depend on an [Authorization] header the caller supplied: the
    stored token replaces it. *)
Theorem request_interceptor_overrides (b : Api.Browser) (config : Api.RequestConfig) :
  Api.requestInterceptor b (Api.requestInterceptor b config)
  = Api.requestInterceptor b config
  ∧ ∀ t own,
      Api.getItem "token" b = Some t → t ≠ "" →
      Api.requestInterceptor b
        {| Api.url := Api.url config;
           Api.method := Api.method config;
           Api.baseURL := Api.baseURL config;
           Api.headers := <["Authorization" := own]> (Api.headers config);
           Api.data := Api.data config |}
      = Api.requestInterceptor b config.
Proof.
  split.
  - destruct (request_interceptor_cases b config) as [(t & Ht & Hne & ->)|[_ Hsame]].
    + unfold requestInterceptor. rewrite Ht.
      destruct t; [contradiction|]. simpl. unfold with_authorization. simpl.
      f_equal. apply insert_insert_eq.
    + rewrite Hsame. exact Hsame.
  - intros t own Ht Hne. unfold requestInterceptor. rewrite Ht.
    destruct t; [contradiction|]. simpl. f_equal. apply insert_insert_eq.
Qed.

Lemma receive_storage (r : Response) (b : Browser) :
  fst (receive r b)
  = if (status r =? 401)
    then navigate "/login" (removeItem "user" (removeItem "token" b))
    else b.
Proof.
  unfold receive, validateStatus.
  destruct (status r =? 401) eqn:E.
  - replace ((status r =? 0) || ((200 <=? status r) && (status r <? 300)))
      with false by (apply Z.eqb_eq in E; rewrite E; reflexivity).
    unfold responseErrorInterceptor, is_unauthorized. simpl. rewrite E. reflexivity.
  - destruct ((status r =? 0) || ((200 <=? status r) && (status r <? 300)));
      [reflexivity|].
    unfold responseErrorInterceptor, is_unauthorized. simpl. rewrite E. reflexivity.
Qed.

Lemma logged_out_storage (b : Browser) (k v : string) :
  getItem k (navigate "/login" (removeItem "user" (removeItem "token" b))) = Some v →
  getItem k b = Some v.
Proof.
  unfold getItem. simpl. intros H.
  apply lookup_delete_Some in H as [_ H].
  apply lookup_delete_Some in H as [_ H]. exact H.
Qed.

Lemma receive_all_cons (r : Response) (rs : list Response) (b : Browser) :
  receive_all (r :: rs) b = receive_all rs (fst (receive r b)).
Proof. reflexivity. Qed.

Lemma receive_all_shrinks (rs : list Response) :
  ∀ (b : Browser) (k v : string),
    getItem k (receive_all rs b) = Some v → getItem k b = Some v.
Proof.
  induction rs as [|r rs IH]; intros b k v H; [exact H|].
  rewrite receive_all_cons in H. apply IH in H. rewrite receive_storage in H.
  destruct (status r =? 401); [apply logged_out_storage in H|]; exact H.
Qed.

Lemma receive_all_logged_out (rs : list Response) :
  ∀ b : Browser,
    getItem "token" b = None → getItem "user" b = None →
    location_href b = "/login" →
    getItem "token" (receive_all rs b) = None
    ∧ getItem "user" (receive_all rs b) = None
    ∧ location_href (receive_all rs b) = "/login".
Proof.
  induction rs as [|r rs IH]; intros b Ht Hu Hl; [auto|].
  rewrite receive_all_cons, receive_storage.
  destruct (status r =? 401); [|apply IH; assumption].
  apply IH; unfold getItem; simpl.
  - rewrite lookup_delete_ne by discriminate. apply lookup_delete_eq.
  - apply lookup_delete_eq.
  - reflexivity.
Qed.

(** X2. Over any sequence of responses the response interceptors never
    add or change a [localStorage] entry; when none of the responses has
    status 401 the browser state is untouched, and as soon as one has,
    [token] and [user] are gone and the browser is at [/login], whatever
    follows. *)
Theorem responses_only_log_out (rs : list Api.Response) (b : Api.Browser) :
  (∀ k v, Api.getItem k (ApiSession.receive_all rs b) = Some v →
          Api.getItem k b = Some v)
  ∧ ((∀ r, r ∈ rs → Api.status r ≠ 401) → ApiSession.receive_all rs b = b)
  ∧ ((∃ r, r ∈ rs ∧ Api.status r = 401) →
     Api.getItem "token" (ApiSession.receive_all rs b) = None
     ∧ Api.getItem "user" (ApiSession.receive_all rs b) = None
     ∧ Api.location_href (ApiSession.receive_all rs b) = "/login").
Proof.
  split; [apply receive_all_shrinks|]. split.
  - revert b. induction rs as [|r rs IH]; intros b Hno; [reflexivity|].
    rewrite receive_all_cons, receive_storage.
    destruct (status r =? 401) eqn:E.
    + apply Z.eqb_eq in E. exfalso. apply (Hno r); [apply list_elem_of_here|exact E].
    + apply IH. intros r' Hr'. apply Hno. apply list_elem_of_further, Hr'.
  - revert b. induction rs as [|r rs IH]; intros b (r' & Hin & H401).
    + inversion Hin.
    + rewrite receive_all_cons, receive_storage.
      destruct (status r =? 401) eqn:E.
      * apply receive_all_logged_out; unfold getItem; simpl.
        -- rewrite lookup_delete_ne by discriminate. apply lookup_delete_eq.
        -- apply lookup_delete_eq.
        -- reflexivity.
      * apply IH. exists r'. split; [|exact H401].
        apply elem_of_cons in Hin as [->|Hin]; [|exact Hin].
        apply Z.eqb_neq in E. contradiction.
Qed.

(** X3. A request sent after a 401 response went through the client
    leaves the request interceptor exactly as the caller built it: no
    bearer header is attached any more. *)
Theorem no_bearer_after_401 (r : Api.Response) (b : Api.Browser)
    (config : Api.RequestConfig) :
  Api.status r = 401 →
  Api.requestInterceptor (fst (Api.receive r b)) config = config.
Proof.
  intros H401. rewrite receive_storage, H401. simpl.
  apply no_token_no_change. unfold getItem. simpl.
  rewrite lookup_delete_ne by discriminate. apply lookup_delete_eq.
Qed.

End InterceptorFacts.

(** ** The authentication context *)

Section AuthFacts.
Import Js Api ApiSession AuthContext.

Context {U : Type}.
Variable JSON_stringify : U → string.
Variable JSON_parse : string → option U.
Variable response_data : Response → AuthResponse U.
Variable data_message : Response → option string.

Local Abbreviation login := (AuthContext.login JSON_stringify response_data data_message).
Local Abbreviation register := (AuthContext.register JSON_stringify response_data data_message).
Local Abbreviation restoreSession := (AuthContext.restoreSession JSON_parse).

Lemma resolves_not_401 (r : Response) :
  resolves r = true → (status r =? 401) = false.
Proof.
  unfold resolves, validateStatus. intros H. apply Z.eqb_neq. intros E.
  rewrite E in H. discriminate H.
Qed.

Lemma deliver_resolved (r : Response) (b : Browser) :
  resolves r = true → deliver (Answered r) b = (b, Fulfilled r).
Proof. intros H. unfold deliver, receive. fold (resolves r). rewrite H. reflexivity. Qed.

Lemma deliver_rejected (a : Arrival) (b : Browser) :
  match a with Answered r => resolves r = false | Unanswered _ => True end →
  ∃ error,
    deliver a b
    = (match a with
       | Answered r =>
           if status r =? 401
           then navigate "/login" (removeItem "user" (removeItem "token" b))
           else b
       | Unanswered _ => b
       end, Rejected error)
    ∧ response error = match a with Answered r => Some r | Unanswered _ => None end.
Proof.
  destruct a as [r|reason]; simpl.
  - intros H. exists (error_of r). split; [|reflexivity].
    unfold receive. fold (resolves r). rewrite H.
    unfold responseErrorInterceptor, is_unauthorized. simpl.
    destruct (status r =? 401); reflexivity.
  - intros _. eexists. split; reflexivity.
Qed.

(** Registration differs from login in the fallback text only. *)
Lemma register_as_login (a : Arrival) (b : Browser) (st : AuthState U) :
  fst (register a b st) = fst (login a b st).
Proof.
  unfold AuthContext.login, AuthContext.register.
  destruct (deliver a b) as [b1 [r|error]]; reflexivity.
Qed.

Lemma login_resolved (r : Response) (b : Browser) (st : AuthState U) :
  resolves r = true →
  login (Answered r) b st
  = (setItem "user" (JSON_stringify (response_user (response_data r)))
       (setItem "token" (access_token (response_data r)) b),
     {| user := Some (response_user (response_data r));
        token := Some (access_token (response_data r));
        loading := false |},
     Fulfilled tt).
Proof.
  intros H. unfold AuthContext.login. rewrite (deliver_resolved r b H). reflexivity.
Qed.


Lemma stored_session (b : Browser) (t u : string) :
  let b' := setItem "user" u (setItem "token" t b) in
  getItem "token" b' = Some t
  ∧ getItem "user" b' = Some u
  ∧ (∀ k, k ≠ "token" → k ≠ "user" → getItem k b' = getItem k b)
  ∧ location_href b' = location_href b.
Proof.
  unfold getItem, setItem. simpl. repeat split.
  - rewrite lookup_insert_ne by discriminate. apply lookup_insert_eq.
  - apply lookup_insert_eq.
  - intros k Ht Hu. rewrite !lookup_insert_ne by congruence. reflexivity.
Qed.


Lemma shrunk_by_rejection (a : Arrival) (b : Browser) (k v : string) :
  getItem k (match a with
             | Answered r =>
                 if status r =? 401
                 then navigate "/login" (removeItem "user" (removeItem "token" b))
                 else b
             | Unanswered _ => b
             end) = Some v →
  getItem k b = Some v.
Proof.
  destruct a as [r|reason]; [|auto].
  destruct (status r =? 401); [apply logged_out_storage|auto].
Qed.

(** X5. A login or a registration that fails, because the server answered
    with an error status or did not answer, stores nothing: no
    [localStorage] entry is added or changed, the user and the token of
    the provider state stay as they were and loading ends. The call rejects
    with the [message] of the error answer when that is a non-empty
    string, and with ['Login failed'] (['Registration failed']) otherwise. *)
Theorem failed_login_stores_nothing (a : AuthContext.Arrival) (b : Api.Browser)
    (st : AuthContext.AuthState U) :
  match a with
  | AuthContext.Answered r => ApiSession.resolves r = false
  | AuthContext.Unanswered _ => True
  end →
  ∀ fallback result,
    (fallback = "Login failed"
     ∧ result = AuthContext.login JSON_stringify response_data data_message a b st)
    ∨ (fallback = "Registration failed"
       ∧ result = AuthContext.register JSON_stringify response_data data_message a b st) →
    (∀ k v, Api.getItem k (fst (fst result)) = Some v → Api.getItem k b = Some v)
    ∧ AuthContext.user (snd (fst result)) = AuthContext.user st
    ∧ AuthContext.token (snd (fst result)) = AuthContext.token st
    ∧ AuthContext.loading (snd (fst result)) = false
    ∧ snd result
      = Rejected
          match a with
          | AuthContext.Answered r =>
              match data_message r with
              | Some (String c m) => String c m
              | _ => fallback
              end
          | AuthContext.Unanswered _ => fallback
          end.
Proof.
  intros Ha fallback result Hres.
  destruct (deliver_rejected a b Ha) as (error & Hd & Hresp).
  assert (Heq : result
                = (fst (deliver a b),
                   {| user := user st; token := token st; loading := false |},
                   Rejected (error_text data_message fallback error))).
  { destruct Hres as [[-> ->]|[-> ->]];
      unfold AuthContext.login, AuthContext.register; rewrite Hd; reflexivity. }
  subst result. rewrite Hd. cbn [fst snd].
  split; [intros k v; apply shrunk_by_rejection|].
  split; [reflexivity|]. split; [reflexivity|]. split; [reflexivity|].
  f_equal. unfold error_text. rewrite Hresp.
  destruct a as [r|reason]; [|reflexivity].
  destruct (data_message r) as [[|c m]|]; reflexivity.
Qed.

(** X6. Logging out after a successful login removes what the login
    stored: [token] and [user] are gone from [localStorage], every other
    entry is as before the login, the provider holds no user and no token,
    and requests leave the client as the caller built them. A browser that
    held neither entry before the login is back to the storage it had. *)
Theorem logout_undoes_login (r : Api.Response) (b : Api.Browser)
    (st : AuthContext.AuthState U) :
  ApiSession.resolves r = true →
  let signed_in := AuthContext.login JSON_stringify response_data data_message
                     (AuthContext.Answered r) b st in
  let out := AuthContext.logout (fst (fst signed_in)) (snd (fst signed_in)) in
  Api.localStorage (fst out) = delete "user" (delete "token" (Api.localStorage b))
  ∧ Api.location_href (fst out) = Api.location_href b
  ∧ AuthContext.user (snd out) = None
  ∧ AuthContext.token (snd out) = None
  ∧ (∀ config, Api.requestInterceptor (fst out) config = config)
  ∧ (Api.getItem "token" b = None → Api.getItem "user" b = None →
     fst out = b).
Proof.
  intros Hr. cbv zeta. rewrite (login_resolved r b st Hr). cbn [fst snd].
  unfold logout, removeItem, setItem. cbn [fst snd localStorage location_href].
  assert (Hls : delete "user" (delete "token"
                  (<["user" := JSON_stringify (response_user (response_data r))]>
                     (<["token" := access_token (response_data r)]> (localStorage b))))
                = delete "user" (delete "token" (localStorage b))).
  { apply map_eq. intros k.
    destruct (decide (k = "user")) as [->|Hu];
      [rewrite !lookup_delete_eq; reflexivity|].
    rewrite !(lookup_delete_ne _ "user") by congruence.
    destruct (decide (k = "token")) as [->|Ht];
      [rewrite !lookup_delete_eq; reflexivity|].
    rewrite !(lookup_delete_ne _ "token") by congruence.
    rewrite !lookup_insert_ne by congruence. reflexivity. }
  rewrite Hls.
  split; [reflexivity|]. split; [reflexivity|]. split; [reflexivity|].
  split; [reflexivity|]. split.
  - intros config. apply no_token_no_change. unfold getItem. simpl.
    rewrite lookup_delete_ne by discriminate. apply lookup_delete_eq.
  - unfold getItem. intros Ht Hu. destruct b as [ls href]. simpl in *.
    f_equal. rewrite (delete_id _ "token") by exact Ht. apply delete_id, Hu.
Qed.

Lemma restore_cases (b : Browser) (st : AuthState U) :
  (∃ t s, getItem "token" b = Some t ∧ t ≠ "" ∧ getItem "user" b = Some s ∧ s ≠ ""
          ∧ restoreSession b st
            = match JSON_parse s with
              | Some u => Done {| user := Some u; token := Some t; loading := false |}
              | None => Throws
              end)
  ∨ ((getItem "token" b = None ∨ getItem "token" b = Some ""
      ∨ getItem "user" b = None ∨ getItem "user" b = Some "")
     ∧ restoreSession b st
       = Done {| user := user st; token := token st; loading := false |}).
Proof.
  unfold AuthContext.restoreSession.
  destruct (getItem "token" b) as [t|]; [|right; auto].
  destruct (getItem "user" b) as [s|]; [|right; auto 6].
  destruct t as [|c t]; [right; auto|].
  destruct s as [|c' s]; [right; auto 6|].
  left. exists (String c t), (String c' s). simpl. repeat split; discriminate.
Qed.


(** X8. A session survives a reload: after a successful login whose token
    is non-empty, mounting the provider afresh on the resulting browser
    restores the same token and the same user, provided [JSON.parse] reads
    back what [JSON.stringify] wrote for that user. *)
Theorem login_survives_reload (r : Api.Response) (b : Api.Browser)
    (st : AuthContext.AuthState U) :
  ApiSession.resolves r = true →
  AuthContext.access_token (response_data r) ≠ "" →
  JSON_stringify (AuthContext.response_user (response_data r)) ≠ "" →
  JSON_parse (JSON_stringify (AuthContext.response_user (response_data r)))
  = Some (AuthContext.response_user (response_data r)) →
  let signed_in := AuthContext.login JSON_stringify response_data data_message
                     (AuthContext.Answered r) b st in
  AuthContext.restoreSession JSON_parse (fst (fst signed_in)) AuthContext.initialState
  = AuthContext.Done {| AuthContext.user := AuthContext.user (snd (fst signed_in));
                        AuthContext.token := AuthContext.token (snd (fst signed_in));
                        AuthContext.loading := false |}.
Proof.
  intros Hr Ht Hs Hp. cbv zeta. rewrite (login_resolved r b st Hr). cbn [fst snd].
  pose proof (stored_session b (access_token (response_data r))
                (JSON_stringify (response_user (response_data r))))
    as (Hgt & Hgu & _ & _).
  destruct (restore_cases
              (setItem "user" (JSON_stringify (response_user (response_data r)))
                 (setItem "token" (access_token (response_data r)) b))
              initialState)
    as [(t & s & Ht' & _ & Hs' & _ & ->)|[Hmiss _]].
  - rewrite Hgt in Ht'. rewrite Hgu in Hs'.
    injection Ht' as <-. injection Hs' as <-. rewrite Hp. reflexivity.
  - exfalso. destruct Hmiss as [H|[H|[H|H]]]; congruence.
Qed.

(** X9. After a logout, and after a 401 response went through the client,
    a reload starts logged out: mounting the provider afresh restores no
    user and no token, whatever else is stored and whatever [JSON.parse]
    does. *)
Theorem reload_after_logout_is_logged_out (b : Api.Browser)
    (st : AuthContext.AuthState U) (r : Api.Response) :
  AuthContext.restoreSession JSON_parse (fst (AuthContext.logout b st))
    AuthContext.initialState
  = AuthContext.Done {| AuthContext.user := None; AuthContext.token := None;
                        AuthContext.loading := false |}
  ∧ (Api.status r = 401 →
     AuthContext.restoreSession JSON_parse (fst (Api.receive r b))
       AuthContext.initialState
     = AuthContext.Done {| AuthContext.user := None; AuthContext.token := None;
                           AuthContext.loading := false |}).
Proof.
  assert (Hout : ∀ b', getItem "token" b' = None →
                       restoreSession b' initialState
                       = Done {| user := None; token := None; loading := false |}).
  { intros b' H. unfold AuthContext.restoreSession. rewrite H. reflexivity. }
  split.
  - apply Hout. unfold logout, getItem. simpl.
    rewrite lookup_delete_ne by discriminate. apply lookup_delete_eq.
  - intros H401. apply Hout. rewrite receive_storage, H401. unfold getItem. simpl.
    rewrite lookup_delete_ne by discriminate. apply lookup_delete_eq.
Qed.

End AuthFacts.

(** ** The demo authentication context *)

Section MockAuthFacts.
Import Js Dashboard AuthContextMock.
Local Open Scope float_scope.

Lemma budget_or_default_truthy (userData : RegisterData) :
  truthy_number (budget_or_default userData) = true.
Proof.
  unfold budget_or_default.
  destruct (rd_budget userData) as [b|]; [|reflexivity].
  destruct (truthy_number b) eqn:E; [exact E|reflexivity].
Qed.

(** X10. A user registered through the demo context always has a budget
    the dashboard accepts: the entered budget when it is a number other
    than 0, and 2000 when it is missing, 0 or NaN; so the budget card of
    such a user never reads ['No budget set']. The user is named by the
    entered full name, or by the username when the full name is missing or
    empty, and keeps the id and creation date of the demo user. *)
Theorem mock_register_defaults (userData : AuthContextMock.RegisterData)
    (st : AuthContextMock.AuthState) :
  ∃ u,
    AuthContextMock.user (AuthContextMock.register userData st) = Some u
    ∧ AuthContextMock.token (AuthContextMock.register userData st) = Some "mock-token"
    ∧ AuthContextMock.loading (AuthContextMock.register userData st) = false
    ∧ (∃ b, Dashboard.budget u = Some b ∧ truthy_number b = true
            ∧ (truthy_opt_number (AuthContextMock.rd_budget userData) = true →
               AuthContextMock.rd_budget userData = Some b)
            ∧ (truthy_opt_number (AuthContextMock.rd_budget userData) = false →
               b = 2000))
    ∧ (∀ summary,
         Dashboard.caption (Dashboard.budgetStatus summary (Some u))
         ≠ Dashboard.NoBudgetSet
         ∧ ∀ s, Dashboard.caption (DashboardMock.budgetStatus s (Some u))
                ≠ Dashboard.NoBudgetSet)
    ∧ (∃ n, Dashboard.full_name u = Some n
            ∧ DashboardPage.welcomeName (Some u)
              = Some (if truthy_string n then n else AuthContextMock.rd_username userData)
            ∧ match AuthContextMock.rd_full_name userData with
              | Some (String c m) => n = String c m
              | _ => n = AuthContextMock.rd_username userData
              end)
    ∧ Dashboard.username u = AuthContextMock.rd_username userData
    ∧ Dashboard.email u = AuthContextMock.rd_email userData
    ∧ Dashboard.id u = "1"
    ∧ Dashboard.created_at u = "2024-03-01".
Proof.
  eexists. split; [reflexivity|]. split; [reflexivity|]. split; [reflexivity|].
  pose proof (budget_or_default_truthy userData) as Ht.
  split; [|split; [|split]].
  - exists (budget_or_default userData). split; [reflexivity|]. split; [exact Ht|].
    unfold budget_or_default, truthy_opt_number.
    destruct (rd_budget userData) as [b|]; split; try discriminate; try reflexivity.
    + intros ->. reflexivity.
    + intros ->. reflexivity.
  - intros summary.
    unfold budgetStatus, DashboardMock.budgetStatus, user_budget, truthy_opt_number.
    simpl. rewrite Ht. split; [discriminate|]. intros s. discriminate.
  - exists (full_name_or_username userData). split; [reflexivity|]. split.
    + simpl. destruct (truthy_string (full_name_or_username userData)); reflexivity.
    + unfold full_name_or_username.
      destruct (rd_full_name userData) as [[|c m]|]; reflexivity.
  - repeat split.
Qed.

End MockAuthFacts.

(** ** What the dashboard shows *)

Section PageFacts.
Import Js Dashboard DashboardPage.
Local Open Scope float_scope.

Lemma cellFill_defined (i : nat) : is_Some (cellFill i).
Proof.
  unfold cellFill. apply lookup_lt_is_Some. change (length COLORS) with 6%nat.
  apply Nat.mod_upper_bound. discriminate.
Qed.

(** X11. Every cell of the pie chart gets one of the six colours, never
    an undefined one, and two cells share a colour exactly when their
    indices differ by a multiple of six. *)
Theorem cell_colours_cycle (i j : nat) :
  is_Some (DashboardPage.cellFill i)
  ∧ (DashboardPage.cellFill i = DashboardPage.cellFill j
     ↔ (i mod 6 = j mod 6)%nat).
Proof.
  unfold cellFill. change (length COLORS) with 6%nat.
  pose proof (Nat.mod_upper_bound i 6 ltac:(discriminate)) as Hi.
  pose proof (Nat.mod_upper_bound j 6 ltac:(discriminate)) as Hj.
  split.
  - apply lookup_lt_is_Some. simpl. exact Hi.
  - split; [|intros ->; reflexivity].
    generalize dependent (i mod 6)%nat. generalize dependent (j mod 6)%nat.
    intros n Hn m Hm.
    do 6 (destruct m as [|m]; [do 6 (destruct n as [|n]; [simpl; congruence|]); lia|]).
    lia.
Qed.

Lemma fixed_digits_nonempty (n : Z) (f : nat) :
  truthy_string (fixed_digits n (S f)) = true.
Proof.
  unfold fixed_digits.
  match goal with |- truthy_string (?a ++ "." ++ ?b) = true => destruct a end;
    reflexivity.
Qed.

Lemma toFixed_truthy (x : float) (f : nat) :
  truthy_text (toFixed x (S f)) = true.
Proof.
  unfold toFixed.
  destruct (Prim2SF x) as [s|s| |s m e].
  - apply fixed_digits_nonempty.
  - destruct s; reflexivity.
  - reflexivity.
  - destruct (1e21 <=? PrimFloat.abs x); [reflexivity|].
    destruct s; [reflexivity|]. apply fixed_digits_nonempty.
Qed.

(** X12. The Total Spent card falls back to ['0.00'] only when the summary
    is absent: for every summary that arrived it shows [total_spent] as
    [toFixed(2)] renders it, also for a total of 0, where it agrees with
    the Avg per Day card on ['0.00']. *)
Theorem total_spent_card (s : Dashboard.SpendingSummary) :
  DashboardPage.totalSpentText (Some s) = toFixed (Dashboard.total_spent s) 2
  ∧ DashboardPage.totalSpentText None = Text "0.00"
  ∧ (PrimFloat.is_zero (Dashboard.total_spent s) = true →
     DashboardPage.totalSpentText (Some s) = Text "0.00"
     ∧ Dashboard.avgPerDay (Some s) = Text "0.00").
Proof.
  unfold totalSpentText. rewrite (toFixed_truthy (total_spent s) 1).
  split; [reflexivity|]. split; [reflexivity|].
  intros Hz. split.
  - apply zero_cases in Hz as [-> | ->]; reflexivity.
  - unfold avgPerDay, truthy_number. rewrite Hz. reflexivity.
Qed.


Lemma categoryPanel_plot (s : SpendingSummary) :
  categories s ≠ [] →
  categoryPanel (Some s)
  = Plot (imap (λ index entry, (entry, cellFill index)) (categoryData (Some s))).
Proof.
  intros Hne. unfold categoryPanel.
  replace (0 <? length (categoryData (Some s)))%nat with true; [reflexivity|].
  symmetry. apply Nat.ltb_lt. unfold categoryData. rewrite length_map.
  destruct (categories s); [contradiction|simpl; lia].
Qed.

Lemma plotted_names (s : SpendingSummary) :
  map (λ c : CategoryDatum * option string, name (fst c))
      (imap (λ index entry, (entry, cellFill index)) (categoryData (Some s)))
  = map fst (categories s).
Proof.
  unfold categoryData. generalize (categories s). intros l.
  change (map ?f (imap ?g ?k)) with (f <$> imap g k).
  rewrite fmap_imap.
  rewrite (imap_ext _ (const name)) by reflexivity.
  rewrite imap_const. change (name <$> ?k) with (map name k).
  rewrite map_map. apply map_ext. intros [n v]. reflexivity.
Qed.

(** X14. After a successful load with at least one category, the pie has
    exactly one cell per category of the summary, in the summary's order,
    each with a defined colour, the [i]-th filled with colour [i mod 6];
    the list shows one row per fetched expense up to five, and none of the
    two is replaced by its empty-state note unless it is empty. *)
Theorem loaded_page_shape (E : Type) (summaryData : Dashboard.SpendingSummary)
    (expensesData : list Dashboard.Expense) (st : Dashboard.State)
    (user : option Dashboard.User) :
  ∃ p,
    DashboardPage.render
      (Dashboard.fetchDashboardData (E := E) (Fulfilled summaryData)
         (Fulfilled expensesData) st) user
    = DashboardPage.Shown p
    ∧ (Dashboard.categories summaryData ≠ [] →
       ∃ cells,
         DashboardPage.categoryChart p = Plot cells
         ∧ map (λ c, Dashboard.name (fst c)) cells
           = map fst (Dashboard.categories summaryData)
         ∧ ∀ i c, cells !! i = Some c →
                  snd c = DashboardPage.COLORS !! (i mod 6)%nat ∧ is_Some (snd c))
    ∧ (Dashboard.categories summaryData = [] →
       DashboardPage.categoryChart p = Note "No expense data available")
    ∧ (expensesData ≠ [] →
       ∃ rows,
         DashboardPage.recent p = Plot rows
         ∧ length rows = Nat.min 5 (length expensesData)
         ∧ map DashboardPage.row_key rows
           = map Dashboard.expense_id (take 5 expensesData))
    ∧ (expensesData = [] →
       DashboardPage.recent p
       = Note "No expenses recorded yet. Start by adding your first expense!").
Proof.
  eexists. split; [reflexivity|].
  cbn [categoryChart recent fetchDashboardData summary recentExpenses].
  replace (slice expensesData 0 5) with (take 5 expensesData)
    by (symmetry; exact (slice_prefix expensesData 5)).
  split; [|split; [|split]].
  - intros Hne. rewrite (categoryPanel_plot summaryData Hne).
    eexists. split; [reflexivity|]. split.
    + apply plotted_names.
    + intros i c Hi. rewrite list_lookup_imap in Hi.
      destruct (categoryData (Some summaryData) !! i) as [d|]; [|discriminate].
      injection Hi as <-. cbn [snd]. split; [reflexivity|]. apply cellFill_defined.
  - intros Hc. unfold categoryPanel, categoryData. rewrite Hc. reflexivity.
  - intros Hne. unfold recentPanel.
    destruct expensesData as [|e es]; [contradiction|].
    cbn [take length Nat.ltb Nat.leb]. eexists. split; [reflexivity|]. split.
    + rewrite length_map. cbn [length]. rewrite length_take. lia.
    + rewrite map_map. reflexivity.
  - intros ->. reflexivity.
Qed.

End PageFacts.

(** ** Instances of the further properties *)

Section FurtherInstances.
Import Js Api AuthContext AuthSample.

(** A request built after the sample login was refused. *)
Lemma no_bearer_after_401_witness :
  requestInterceptor (fst (receive refused
      {| localStorage := {["token" := "abc"; "user" := "{}"]};
         location_href := "/dashboard" |}))
    {| url := "/expenses"; method := "get"; baseURL := "http://localhost:8000";
       headers := {["Content-Type" := "application/json"]}; data := None |}
  = {| url := "/expenses"; method := "get"; baseURL := "http://localhost:8000";
       headers := {["Content-Type" := "application/json"]}; data := None |}.
Proof. apply no_bearer_after_401. reflexivity. Defined.


(** The sample login, refused. *)
Lemma failed_login_stores_nothing_witness :
  let result := login stringify response_data data_message (Answered refused)
                  signed_out initialState in
  snd result = Rejected "Invalid credentials"
  ∧ user (snd (fst result)) = None
  ∧ token (snd (fst result)) = None.
Proof.
  intros result.
  pose proof (failed_login_stores_nothing stringify response_data data_message
                (Answered refused) signed_out initialState eq_refl
                "Login failed" result (or_introl (conj eq_refl eq_refl)))
    as (_ & H2 & H3 & _ & H5).
  split; [exact H5|]. split; [exact H2|exact H3].
Defined.

(** The sample login followed by a logout. *)
Lemma logout_undoes_login_witness :
  let signed_in := login stringify response_data data_message (Answered accepted)
                     signed_out initialState in
  fst (logout (fst (fst signed_in)) (snd (fst signed_in))) = signed_out.
Proof.
  intros signed_in.
  apply (logout_undoes_login stringify response_data data_message
           accepted signed_out initialState eq_refl); reflexivity.
Defined.

(** The sample login followed by a reload. *)
Lemma login_survives_reload_witness :
  let signed_in := login stringify response_data data_message (Answered accepted)
                     signed_out initialState in
  restoreSession parse (fst (fst signed_in)) initialState
  = Done {| user := Some DashboardMock.mockUser; token := Some "eyJ0eXAi";
            loading := false |}.
Proof.
  intros signed_in.
  apply (login_survives_reload stringify parse response_data data_message
           accepted signed_out initialState eq_refl); [discriminate|discriminate|reflexivity].
Defined.

End FurtherInstances.
